(** * AI Code Review Assistant: rule engine, LLM gateway and orchestrator

    A shallow embedding of [app/rules.py], [app/models.py], [app/prompts.py]
    and [app/reviewer.py] (with the inline rule set of [api.py] for
    comparison), and the properties of the review pipeline proved over it.

    Character model.  A Python [str] is modelled as a Rocq [string]; each
    [ascii] stands for the code point of the same number (0..255).  The
    character tables below ([isspace], [isword], [lower_char]) are Python's
    tables on that range. *)

From Stdlib Require Import ZArith NArith String Ascii List Bool Lia.
From Stdlib Require Import DecimalString Floats.
From stdpp Require Import base option list gmap strings.

Open Scope string_scope.
Open Scope list_scope.

(* ================================================================== *)
(** ** Python string primitives *)
(* ================================================================== *)

Module PyStr.

Definition code (c : ascii) : N := N_of_ascii c.

Definition between (lo hi n : N) : bool := (lo <=? n)%N && (n <=? hi)%N.

(** [str.isspace] on one character; also the regex class [\s]. *)
Definition isspace (c : ascii) : bool :=
  let n := code c in
  between 9 13 n || between 28 32 n || (n =? 133)%N || (n =? 160)%N.

(** The regex class [\w]: alphanumeric characters and the underscore. *)
Definition isword (c : ascii) : bool :=
  let n := code c in
  between 48 57 n || between 65 90 n || (n =? 95)%N || between 97 122 n
  || (n =? 170)%N || (n =? 178)%N || (n =? 179)%N || (n =? 181)%N
  || (n =? 185)%N || (n =? 186)%N || between 188 190 n
  || between 192 214 n || between 216 246 n || between 248 255 n.

(** [str.lower] on one character. *)
Definition lower_char (c : ascii) : ascii :=
  let n := code c in
  if between 65 90 n || (between 192 222 n && negb (n =? 215)%N)
  then ascii_of_N (n + 32) else c.

Fixpoint lower (s : string) : string :=
  match s with
  | EmptyString => EmptyString
  | String c s' => String (lower_char c) (lower s')
  end.

(** [s.startswith(p)] *)
Definition startswith (s p : string) : bool := String.prefix p s.

(** [s.startswith((p1, p2, ...))] *)
Definition startswith_any (s : string) (ps : list string) : bool :=
  existsb (startswith s) ps.

(** [sub in s] *)
Fixpoint contains (sub s : string) : bool :=
  if String.prefix sub s then true
  else match s with
       | EmptyString => false
       | String _ s' => contains sub s'
       end.

(** [s[n:]] *)
Fixpoint drop (n : nat) (s : string) : string :=
  match n, s with
  | O, _ => s
  | S _, EmptyString => EmptyString
  | S k, String _ s' => drop k s'
  end.

(** [s.lstrip()], [s.rstrip()] and [s.strip()] *)
Fixpoint lstrip (s : string) : string :=
  match s with
  | EmptyString => EmptyString
  | String c s' => if isspace c then lstrip s' else s
  end.

Fixpoint rstrip (s : string) : string :=
  match s with
  | EmptyString => EmptyString
  | String c s' =>
      match rstrip s' with
      | EmptyString => if isspace c then EmptyString else String c EmptyString
      | r => String c r
      end
  end.

Definition strip (s : string) : string := rstrip (lstrip s).

(** [s.split(sep)] for a non-empty separator: the pieces between the
    occurrences of [sep], found left to right without overlap.  [skip]
    counts the characters of the current occurrence still to be passed
    over, [cur] is the piece read so far. *)
Fixpoint split_go (sep : string) (skip : nat) (cur s : string) : list string :=
  match s with
  | EmptyString => [cur]
  | String c s' =>
      match skip with
      | S k => split_go sep k cur s'
      | O =>
          if String.prefix sep s
          then cur :: split_go sep (String.length sep - 1) EmptyString s'
          else split_go sep 0 (cur +:+ String c EmptyString) s'
      end
  end.

Definition split (s sep : string) : list string := split_go sep 0 EmptyString s.

(** [sep.join(parts)] *)
Fixpoint join (sep : string) (parts : list string) : string :=
  match parts with
  | [] => EmptyString
  | [p] => p
  | p :: rest => p +:+ sep +:+ join sep rest
  end.

(** [str(n)] for a non-negative integer, as an f-string prints it. *)
Definition str_of_nat (n : nat) : string :=
  NilEmpty.string_of_uint (Nat.to_uint n).

Definition newline : string := String (ascii_of_N 10) EmptyString.

End PyStr.

(* ================================================================== *)
(** ** Regular expressions, as far as the patterns of the rules use them *)
(* ================================================================== *)

Module Re.
Import PyStr.

(** One-character classes. *)
Inductive cclass : Type :=
| Lit (c : ascii)              (* a literal character *)
| AnyOf (cs : list ascii)      (* [...]  *)
| NoneOf (cs : list ascii)     (* [^...] *)
| Space                        (* \s *)
| NotSpace                     (* \S *)
| Word.                        (* \w *)

Inductive quant : Type :=
| Once                         (* x  *)
| Maybe                        (* x? *)
| Many0                        (* x* *)
| Many1.                       (* x+ *)

Inductive node : Type :=
| Chars (q : quant) (k : cclass)
| Boundary                     (* \b *)
| Start.                       (* ^  *)

Definition pattern : Type := list node.

(** A run of literal characters. *)
Fixpoint lits (s : string) : pattern :=
  match s with
  | EmptyString => []
  | String c s' => Chars Once (Lit c) :: lits s'
  end.

Definition same_char (ignorecase : bool) (a b : ascii) : bool :=
  if ignorecase then Ascii.eqb (lower_char a) (lower_char b) else Ascii.eqb a b.

Definition class_matches (ignorecase : bool) (k : cclass) (c : ascii) : bool :=
  match k with
  | Lit l => same_char ignorecase l c
  | AnyOf cs => existsb (fun l => same_char ignorecase l c) cs
  | NoneOf cs => negb (existsb (fun l => same_char ignorecase l c) cs)
  | Space => isspace c
  | NotSpace => negb (isspace c)
  | Word => isword c
  end.

Definition word_before (prev : option ascii) : bool :=
  match prev with Some c => isword c | None => false end.

Definition word_after (s : string) : bool :=
  match s with String c _ => isword c | EmptyString => false end.

(** [\b]: exactly one side of the position is a word character. *)
Definition at_boundary (prev : option ascii) (s : string) : bool :=
  xorb (word_before prev) (word_after s).

(** Zero or more characters of a class, then the continuation [k];
    every split point is tried, the longest first. *)
Fixpoint many (f : ascii -> bool) (k : option ascii -> string -> bool)
    (prev : option ascii) (s : string) : bool :=
  match s with
  | String c s' =>
      if f c then (if many f k (Some c) s' then true else k prev s)
      else k prev s
  | EmptyString => k prev s
  end.

(** Does the pattern match at this position?  [prev] is the character
    just before the position, [None] at the start of the text. *)
Fixpoint match_at (ignorecase : bool) (p : pattern)
    (prev : option ascii) (s : string) {struct p} : bool :=
  match p with
  | [] => true
  | Start :: p' =>
      match prev with
      | None => match_at ignorecase p' prev s
      | Some _ => false
      end
  | Boundary :: p' =>
      if at_boundary prev s then match_at ignorecase p' prev s else false
  | Chars Once k :: p' =>
      match s with
      | String c s' =>
          if class_matches ignorecase k c
          then match_at ignorecase p' (Some c) s' else false
      | EmptyString => false
      end
  | Chars Maybe k :: p' =>
      match s with
      | String c s' =>
          if class_matches ignorecase k c
          then (if match_at ignorecase p' (Some c) s' then true
                else match_at ignorecase p' prev s)
          else match_at ignorecase p' prev s
      | EmptyString => match_at ignorecase p' prev s
      end
  | Chars Many0 k :: p' =>
      many (class_matches ignorecase k) (match_at ignorecase p') prev s
  | Chars Many1 k :: p' =>
      match s with
      | String c s' =>
          if class_matches ignorecase k c
          then many (class_matches ignorecase k) (match_at ignorecase p') (Some c) s'
          else false
      | EmptyString => false
      end
  end.

(** The leftmost position from which the pattern matches, if any. *)
Fixpoint search_from (ignorecase : bool) (p : pattern)
    (prev : option ascii) (s : string) : bool :=
  if match_at ignorecase p prev s then true
  else match s with
       | String c s' => search_from ignorecase p (Some c) s'
       | EmptyString => false
       end.

(** [re.search(p, s)] and [re.search(p, s, re.IGNORECASE)], as truth values *)
Definition search (ignorecase : bool) (p : pattern) (s : string) : bool :=
  search_from ignorecase p None s.

(** [re.match(p, s)], as a truth value *)
Definition match_ (p : pattern) (s : string) : bool :=
  match_at false p None s.

End Re.

(* ================================================================== *)
(** ** Exceptions and fallible computations *)
(* ================================================================== *)

Module Exc.

(** The exception classes the pipeline raises or meets.  In
    [reviewer.py], [LLMTimeoutError] and [LLMInvalidOutputError] are
    subclasses of [ReviewerError]; every class here is a subclass of
    Python's [Exception]. *)
Inductive exn_class : Type :=
| ReviewerError
| LLMTimeoutError
| LLMInvalidOutputError
| JSONDecodeError
| ValidationError
| TypeError
| KeyError
| IndexError
| RequestsTimeout            (* requests.Timeout *)
| OtherException.            (* any other library exception *)

(** An exception value; [exn_msg] is what [str(e)] returns. *)
Record exn : Type := Exn { exn_cls : exn_class; exn_msg : string }.

Definition class_eqb (a b : exn_class) : bool :=
  match a, b with
  | ReviewerError, ReviewerError
  | LLMTimeoutError, LLMTimeoutError
  | LLMInvalidOutputError, LLMInvalidOutputError
  | JSONDecodeError, JSONDecodeError
  | ValidationError, ValidationError
  | TypeError, TypeError
  | KeyError, KeyError
  | IndexError, IndexError
  | RequestsTimeout, RequestsTimeout
  | OtherException, OtherException => true
  | _, _ => false
  end.

(** [isinstance(e, cls)] for the classes used in [except] clauses. *)
Definition isinstance (e : exn) (cls : exn_class) : bool :=
  match cls with
  | ReviewerError =>
      match exn_cls e with
      | ReviewerError | LLMTimeoutError | LLMInvalidOutputError => true
      | _ => false
      end
  | _ => class_eqb (exn_cls e) cls
  end.

Inductive result (A : Type) : Type :=
| Ok (a : A)
| Raise (e : exn).
Arguments Ok {A} a.
Arguments Raise {A} e.

#[export] Instance result_ret : MRet result := fun A a => Ok a.
#[export] Instance result_bind : MBind result := fun A B f m =>
  match m with
  | Ok a => f a
  | Raise e => Raise e
  end.
#[export] Instance result_fmap : FMap result := fun A B f m =>
  match m with
  | Ok a => Ok (f a)
  | Raise e => Raise e
  end.

End Exc.

(* ================================================================== *)
(** ** Data model ([app/models.py]) *)
(* ================================================================== *)

Module Models.
Import Exc.

#[local] Set Warnings "-inexact-float".

Record Issue : Type := {
  type : string;
  severity : string;
  message : string;
  confidence : float;
  action : string;
  line_number : option Z;
  file_path : option string;
}.

(** [Literal["low", "medium", "high"]] and [Literal["review", "ignore"]] *)
Definition severity_literal : list string := ["low"; "medium"; "high"].
Definition action_literal : list string := ["review"; "ignore"].

Definition is_literal (allowed : list string) (v : string) : bool :=
  existsb (String.eqb v) allowed.

(** [Field(..., ge=0.0, le=1.0)] *)
Definition confidence_ok (c : float) : bool :=
  (0 <=? c)%float && (c <=? 1)%float.

(** The constraints the [Issue] model declares on its fields. *)
Definition issue_ok (i : Issue) : bool :=
  is_literal severity_literal (severity i)
  && confidence_ok (confidence i)
  && is_literal action_literal (action i).

(** Constructing the model validates it: a violated constraint raises
    pydantic's [ValidationError] instead of building the object. *)
Definition validated (i : Issue) : result Issue :=
  if issue_ok i then Ok i
  else Raise (Exn ValidationError "validation error for Issue").

(** [Issue(type=.., severity=.., message=.., confidence=.., action=..)]
    as the rules call it: [line_number] and [file_path] are not passed
    and take their default [None]. *)
Definition Issue_new (type severity message : string) (confidence : float)
    (action : string) : result Issue :=
  validated {| type := type; severity := severity; message := message;
               confidence := confidence; action := action;
               line_number := None; file_path := None |}.

Record PRDiff : Type := {
  pr_number : Z;
  title : string;
  description : string;
  author : string;
  files_changed : list string;
  diff : string;
  commit_message : string;
}.

Record ReviewSummary : Type := {
  total_issues : nat;
  high_severity : nat;
  medium_severity : nat;
  low_severity : nat;
  review_time_seconds : float;
  llm_used : bool;
  model_name : option string;
}.

Record ReviewOutput : Type := {
  out_pr_number : Z;
  issues : list Issue;
  summary : ReviewSummary;
  metadata : gmap string (option string);
}.

End Models.

(* ================================================================== *)
(** ** The rule engine ([app/rules.py]) *)
(* ================================================================== *)

Module Rules.
Import PyStr Re Exc Models.

#[local] Set Warnings "-inexact-float".

(** The filter of [check_pr_size]:
    [line.startswith(('+', '-')) and not line.startswith(('+++', '---'))] *)
Definition is_changed_line (line : string) : bool :=
  startswith_any line ["+"; "-"] && negb (startswith_any line ["+++"; "---"]).

Definition lines_changed (diff : string) : nat :=
  length (List.filter is_changed_line (split diff newline)).

Definition pr_size_message (n : nat) : string :=
  "PR has " +:+ str_of_nat n +:+ " lines changed. Consider splitting for easier review.".

Definition check_pr_size (diff : string) (threshold : nat) : result (option Issue) :=
  let lines_changed := lines_changed diff in
  if (threshold <? lines_changed)%nat then
    i ← Issue_new "pr_size" "medium" (pr_size_message lines_changed) 1.0 "review";
    Ok (Some i)
  else Ok None.

Definition dquote : ascii := ascii_of_N 34.
Definition squote : ascii := ascii_of_N 39.

(** \s*=\s*[DQ SQ][^DQ SQ]+[DQ SQ], the tail shared by the three
    hardcoded-secret patterns; DQ and SQ stand for the double and the
    single quote character. *)
Definition quoted_assignment : pattern :=
  [Chars Many0 Space; Chars Once (Lit "="); Chars Many0 Space;
   Chars Once (AnyOf [dquote; squote]);
   Chars Many1 (NoneOf [dquote; squote]);
   Chars Once (AnyOf [dquote; squote])].

(** The dictionary [dangerous_patterns], in insertion order:
    pattern, then (message, severity). *)
Definition dangerous_patterns : list (pattern * (string * string)) :=
  [ (* \beval\s*\( *)
    (Boundary :: lits "eval" ++ [Chars Many0 Space; Chars Once (Lit "(")],
     ("Use of eval() detected", "high"));
    (* \bexec\s*\( *)
    (Boundary :: lits "exec" ++ [Chars Many0 Space; Chars Once (Lit "(")],
     ("Use of exec() detected", "high"));
    (* \bpickle\.loads?\( *)
    (Boundary :: lits "pickle.load" ++ [Chars Maybe (Lit "s"); Chars Once (Lit "(")],
     ("Use of pickle detected - consider safer alternatives", "medium"));
    (* password\s*=\s*[DQ SQ][^DQ SQ]+[DQ SQ] *)
    (lits "password" ++ quoted_assignment,
     ("Possible hardcoded password", "high"));
    (* api[_-]?key\s*=\s*[DQ SQ][^DQ SQ]+[DQ SQ] *)
    (lits "api" ++ [Chars Maybe (AnyOf ["_"; "-"]%char)] ++ lits "key" ++ quoted_assignment,
     ("Possible hardcoded API key", "high"));
    (* secret\s*=\s*[DQ SQ][^DQ SQ]+[DQ SQ] *)
    (lits "secret" ++ quoted_assignment,
     ("Possible hardcoded secret", "high")) ].

(** The loop over the pattern table: a pattern found anywhere in the
    diff ([re.search] with [re.IGNORECASE]) appends one issue. *)
Fixpoint scan_patterns (table : list (pattern * (string * string)))
    (diff : string) (issues : list Issue) : result (list Issue) :=
  match table with
  | [] => Ok issues
  | (pattern, (message, severity)) :: rest =>
      if search true pattern diff then
        i ← Issue_new "security" severity message 1.0 "review";
        scan_patterns rest diff (issues ++ [i])
      else scan_patterns rest diff issues
  end.

Definition check_security_patterns (diff : string) : result (list Issue) :=
  scan_patterns dangerous_patterns diff [].

(** from\s+\S+\s+import\s+\* *)
Definition star_import_pattern : pattern :=
  lits "from" ++ [Chars Many1 Space; Chars Many1 NotSpace; Chars Many1 Space]
  ++ lits "import" ++ [Chars Many1 Space; Chars Once (Lit "*")].

Definition check_import_quality (diff : string) : result (list Issue) :=
  let issues := [] in
  if search false star_import_pattern diff then
    i ← Issue_new "style" "low"
          "Star import (import *) detected. Consider explicit imports."
          0.9 "review";
    Ok (issues ++ [i])
  else Ok issues.

(** The filter of [check_code_complexity]:
    [line.startswith('+') and not line.startswith('+++')] *)
Definition is_added_line (line : string) : bool :=
  startswith line "+" && negb (startswith line "+++").

Definition added_lines (diff : string) : list string :=
  List.filter is_added_line (split diff newline).

(** ^\+\s*def\s+\w+\s*\( *)
Definition function_pattern : pattern :=
  [Start; Chars Once (Lit "+"); Chars Many0 Space] ++ lits "def"
  ++ [Chars Many1 Space; Chars Many1 Word; Chars Many0 Space; Chars Once (Lit "(")].

(** [sum(1 for line in added_lines if re.match(function_pattern, line))] *)
Definition function_count (lines : list string) : nat :=
  length (List.filter (match_ function_pattern) lines).

Definition check_code_complexity (diff : string) : result (list Issue) :=
  let issues := [] in
  let added_lines := added_lines diff in
  if (100 <? length added_lines)%nat then
    if (function_count added_lines =? 1)%nat then
      i ← Issue_new "complexity" "medium"
            "Large function detected (>100 lines). Consider breaking into smaller functions."
            0.8 "review";
      Ok (issues ++ [i])
    else Ok issues
  else Ok issues.

(** A rule returns either an optional issue or a list of issues. *)
Inductive rule_result : Type :=
| Single (r : option Issue)
| Several (l : list Issue).

Definition RULE_REGISTRY : list (string -> result rule_result) :=
  [ (fun diff => Single <$> check_pr_size diff 500);
    (fun diff => Several <$> check_security_patterns diff);
    (fun diff => Several <$> check_import_quality diff);
    (fun diff => Several <$> check_code_complexity diff) ].

(** The body of the loop of [run_all_rules]: [if result:] skips [None]
    and the empty list; a list is extended, a single issue appended. *)
Definition collect (issues : list Issue) (r : rule_result) : list Issue :=
  match r with
  | Single None => issues
  | Single (Some i) => issues ++ [i]
  | Several l => issues ++ l
  end.

Fixpoint run_rules (registry : list (string -> result rule_result))
    (diff : string) (issues : list Issue) : result (list Issue) :=
  match registry with
  | [] => Ok issues
  | rule_func :: rest =>
      r ← rule_func diff;
      run_rules rest diff (collect issues r)
  end.

Definition run_all_rules (diff : string) : result (list Issue) :=
  run_rules RULE_REGISTRY diff [].

End Rules.

(* ================================================================== *)
(** ** The inline rule set of the REST wrapper ([api.py]) *)
(* ================================================================== *)

Module Api.
Import PyStr Re Exc.

#[local] Set Warnings "-inexact-float".

(** The issue dictionaries [api.py] builds: always these five keys. *)
Record issue_dict : Type := {
  d_type : string;
  d_severity : string;
  d_message : string;
  d_confidence : float;
  d_action : string;
}.

(** The dictionary [patterns] of [api.py], in insertion order. *)
Definition patterns : list (pattern * (string * string)) :=
  [ (* \beval\s*\( *)
    (Boundary :: lits "eval" ++ [Chars Many0 Space; Chars Once (Lit "(")],
     ("Use of eval() detected - security risk", "high"));
    (* \bexec\s*\( *)
    (Boundary :: lits "exec" ++ [Chars Many0 Space; Chars Once (Lit "(")],
     ("Use of exec() detected - security risk", "high"));
    (* password\s*=\s*[DQ SQ][^DQ SQ]+[DQ SQ] *)
    (lits "password" ++ Rules.quoted_assignment,
     ("Possible hardcoded password", "high"));
    (* api[_-]?key\s*=\s*[DQ SQ][^DQ SQ]+[DQ SQ] *)
    (lits "api" ++ [Chars Maybe (AnyOf ["_"; "-"]%char)] ++ lits "key"
       ++ Rules.quoted_assignment,
     ("Possible hardcoded API key", "high"));
    (* SECRET_KEY\s*=\s*[DQ SQ] *)
    (lits "SECRET_KEY"
       ++ [Chars Many0 Space; Chars Once (Lit "="); Chars Many0 Space;
           Chars Once (AnyOf [Rules.dquote; Rules.squote])],
     ("Hardcoded secret key detected", "high"));
    (* hashlib\.md5 *)
    (lits "hashlib.md5",
     ("MD5 is broken - use SHA256 or bcrypt", "high"));
    (* \bpickle\.loads?\( *)
    (Boundary :: lits "pickle.load" ++ [Chars Maybe (Lit "s"); Chars Once (Lit "(")],
     ("pickle.load() is unsafe - use safer alternatives", "medium")) ].

Fixpoint scan_patterns (table : list (pattern * (string * string)))
    (diff : string) (issues : list issue_dict) : list issue_dict :=
  match table with
  | [] => issues
  | (pattern, (message, severity)) :: rest =>
      if search true pattern diff then
        scan_patterns rest diff
          (issues ++ [{| d_type := "security"; d_severity := severity;
                         d_message := message; d_confidence := 1.0;
                         d_action := "review" |}])
      else scan_patterns rest diff issues
  end.

Definition check_security_patterns (diff : string) : list issue_dict :=
  scan_patterns patterns diff [].

Definition check_pr_size (diff : string) (threshold : nat) : option issue_dict :=
  let lines := List.filter Rules.is_changed_line (split diff newline) in
  if (threshold <? length lines)%nat then
    Some {| d_type := "pr_size"; d_severity := "medium";
            d_message := "PR has " +:+ str_of_nat (length lines)
                         +:+ " lines changed. Consider splitting.";
            d_confidence := 1.0; d_action := "review" |}
  else None.

Definition check_import_quality (diff : string) : list issue_dict :=
  if search false Rules.star_import_pattern diff then
    [{| d_type := "style"; d_severity := "low";
        d_message := "Star import (import *) detected. Use explicit imports.";
        d_confidence := 0.9; d_action := "review" |}]
  else [].

(** [counts[i["severity"]] += 1] over the issues. *)
Fixpoint count_severities (issues : list issue_dict) (counts : gmap string nat)
    : result (gmap string nat) :=
  match issues with
  | [] => Ok counts
  | i :: rest =>
      match counts !! d_severity i with
      | Some n => count_severities rest (<[d_severity i := (n + 1)%nat]> counts)
      | None => Raise (Exn KeyError (d_severity i))
      end
  end.

Definition run_review (diff : string)
    : result (list issue_dict * gmap string nat) :=
  let issues := [] in
  let issues :=
    match check_pr_size diff 500 with
    | Some size => issues ++ [size]
    | None => issues
    end in
  let issues := issues ++ check_security_patterns diff in
  let issues := issues ++ check_import_quality diff in
  counts ←
    count_severities issues
      (<["low" := 0%nat]> (<["medium" := 0%nat]> (<["high" := 0%nat]> ∅)));
  Ok (issues, counts).

(** The sample of the [/demo] endpoint. *)
Definition sample_diff : string :=
  "+SECRET_KEY = " +:+ String Rules.dquote "hardcoded-key-123"
    +:+ String Rules.dquote newline
  +:+ "+result = eval(user_input)" +:+ newline
  +:+ "+import hashlib" +:+ newline
  +:+ "+hashlib.md5(password.encode()).hexdigest()" +:+ newline
  +:+ "+from utils import *" +:+ newline.

End Api.

(* ================================================================== *)
(** ** Prompts ([app/prompts.py]) *)
(* ================================================================== *)

Module Prompts.
Import PyStr.

Definition PROMPT_VERSION : string := "v1.0".

(** The f-string of [build_task_prompt]. *)
Definition build_task_prompt (pr_diff pr_title pr_description : string) : string :=
  "Review this Python pull request:" +:+ newline +:+ newline
  +:+ "TITLE: " +:+ pr_title +:+ newline +:+ newline
  +:+ "DESCRIPTION:" +:+ newline +:+ pr_description +:+ newline +:+ newline
  +:+ "DIFF:" +:+ newline +:+ pr_diff +:+ newline +:+ newline
  +:+ "Return a JSON array of issues following the schema specified in the system prompt."
  +:+ newline +:+ "If no issues found, return an empty array: []".

End Prompts.

(* ================================================================== *)
(** ** Vocabulary of the statements *)
(* ================================================================== *)

Module Spec.
Import PyStr Exc Models.

#[local] Set Warnings "-inexact-float".

(** Does the character occur in the string? *)
Fixpoint has_char (c : ascii) (s : string) : bool :=
  match s with
  | EmptyString => false
  | String a s' => if Ascii.eqb c a then true else has_char c s'
  end.

(** A line: a string without a line feed. *)
Definition is_line (s : string) : Prop := has_char (ascii_of_N 10) s = false.

(** Only whitespace. *)
Fixpoint all_space (s : string) : bool :=
  match s with
  | EmptyString => true
  | String c s' => if isspace c then all_space s' else false
  end.

(** No whitespace at either end. *)
Definition trimmed (s : string) : Prop := lstrip s = s /\ rstrip s = s.

(** The text before the first occurrence of [sep], all of it when
    there is none. *)
Fixpoint before (sep s : string) : string :=
  match s with
  | EmptyString => EmptyString
  | String c s' => if String.prefix sep s then EmptyString else String c (before sep s')
  end.

(** How many elements satisfy the test. *)
Definition count {A : Type} (f : A -> bool) (l : list A) : nat :=
  length (List.filter f l).

(** How many issues have this severity. *)
Definition with_severity (sev : string) (l : list Issue) : nat :=
  count (fun i => String.eqb (severity i) sev) l.

(** The issue a rule reports: the action is always [review], and no
    line or file is given. *)
Definition rule_issue (type severity message : string) (confidence : float)
    : Issue :=
  {| type := type; severity := severity; message := message;
     confidence := confidence; action := "review";
     line_number := None; file_path := None |}.

(** The issue of one entry of a pattern table. *)
Definition entry_issue (e : Re.pattern * (string * string)) : Issue :=
  rule_issue "security" (snd (snd e)) (fst (snd e)) 1.

(** Is the pattern of the entry found in the diff? *)
Definition entry_found (diff : string) (e : Re.pattern * (string * string)) : bool :=
  Re.search true (fst e) diff.

Definition pickle_message : string :=
  "Use of pickle detected - consider safer alternatives".

Definition complexity_message : string :=
  "Large function detected (>100 lines). Consider breaking into smaller functions.".

Definition star_import_message : string :=
  "Star import (import *) detected. Consider explicit imports.".

End Spec.

(* ================================================================== *)
(** ** The LLM gateway and the orchestrator ([app/reviewer.py]) *)
(* ================================================================== *)

Module Reviewer.
Import PyStr Exc Models Rules Prompts.

#[local] Set Warnings "-inexact-float".

#[local] Set Warnings "-register-all".

(** A value decoded from JSON: what [json.loads] returns. *)
Inductive pyval : Type :=
| PNone
| PBool (b : bool)
| PInt (z : Z)
| PFloat (f : float)
| PStr (s : string)
| PList (l : list pyval)
| PDict (d : gmap string pyval).

Definition CONFIDENCE_THRESHOLD : float := 0.7.

(** What a provider call comes back with: the text of the reply, or an
    exception raised on the way. *)
Inductive reply : Type :=
| Replied (content : string)
| Failed (e : exn).

Section Gateway.

(** *** The surroundings of the gateway

    Library and outside-world behaviour the code calls into. *)

(** [json.loads]: the decoded value, or the exception it raises
    ([JSONDecodeError] for text that is not JSON). *)
Variable json_loads : string -> result pyval.

(** pydantic's conversion of a value that is not already of the
    field's type ([float], [int], [str]); [None] when it refuses. *)
Variable lax_float : pyval -> option float.
Variable lax_int : pyval -> option Z.
Variable lax_str : pyval -> option string.

(** [os.getenv] *)
Variable getenv : string -> option string.

(** The imports made inside the provider functions. *)
Variable import_openai : result unit.
Variable import_langchain : result unit.
Variable import_requests : result unit.

(** The provider calls: API key or endpoint, model, task prompt,
    timeout.  The system prompt is the constant [SYSTEM_PROMPT]. *)
Variable openai_chat : string -> string -> string -> Z -> reply.
Variable anthropic_invoke : string -> string -> string -> Z -> reply.
Variable local_post : string -> string -> string -> Z -> reply.

(** The clock: [round(time.time() - start_time, 2)]. *)
Variable elapsed : float.

(** *** Building an [Issue] from the keywords of a JSON object *)

Definition as_float (v : pyval) : option float :=
  match v with
  | PFloat f => Some f
  | _ => lax_float v
  end.

Definition as_int (v : pyval) : option Z :=
  match v with
  | PInt z => Some z
  | _ => lax_int v
  end.

Definition as_str (v : pyval) : option string :=
  match v with
  | PStr s => Some s
  | _ => lax_str v
  end.

(** A [Literal] of strings accepts only a string. *)
Definition as_literal (v : pyval) : option string :=
  match v with
  | PStr s => Some s
  | _ => None
  end.

(** An [Optional] field with default [None]: absent and [None] both
    give [None]. *)
Definition optional {A : Type} (conv : pyval -> option A)
    (v : option pyval) : option (option A) :=
  match v with
  | None | Some PNone => Some None
  | Some v => Some <$> conv v
  end.

(** The fields, each required one looked up and converted. *)
Definition read_fields (kw : gmap string pyval) : option Issue :=
  type ← kw !! "type" ≫= as_str;
  severity ← kw !! "severity" ≫= as_literal;
  message ← kw !! "message" ≫= as_str;
  confidence ← kw !! "confidence" ≫= as_float;
  action ← kw !! "action" ≫= as_literal;
  line_number ← optional as_int (kw !! "line_number");
  file_path ← optional as_str (kw !! "file_path");
  Some {| type := type; severity := severity; message := message;
          confidence := confidence; action := action;
          line_number := line_number; file_path := file_path |}.

(** [Issue] called on the unpacked [item]: [item] must be a mapping;
    its fields are read and the constraints of the model checked. *)
Definition Issue_of (item : pyval) : result Issue :=
  match item with
  | PDict kw =>
      match read_fields kw with
      | Some i => validated i
      | None => Raise (Exn ValidationError "validation error for Issue")
      end
  | _ => Raise (Exn TypeError "argument after ** must be a mapping")
  end.

(** *** [_parse_llm_output] *)

Definition fence : string := "```".

(** The block guarded by [content.startswith(fence)]: the piece
    after the first fence, without a leading [json]. *)
Definition strip_fence (content : string) : result string :=
  if startswith content fence then
    match split content fence !! 1%nat with
    | Some content =>
        Ok (if startswith content "json" then drop 4 content else content)
    | None => Raise (Exn IndexError "list index out of range")
    end
  else Ok content.

(** The loop over the decoded array: an element that does not build
    an [Issue] is skipped, one below the threshold is not kept. *)
Fixpoint collect_issues (issues_data : list pyval) (issues : list Issue)
    : list Issue :=
  match issues_data with
  | [] => issues
  | item :: rest =>
      match Issue_of item with
      | Ok issue =>
          if (CONFIDENCE_THRESHOLD <=? confidence issue)%float
          then collect_issues rest (issues ++ [issue])
          else collect_issues rest issues
      | Raise _ => collect_issues rest issues
      end
  end.

(** The body of the [try]. *)
Definition parse_body (content : string) : result (list Issue) :=
  let content := strip content in
  content ← strip_fence content;
  issues_data ← json_loads content;
  match issues_data with
  | PList items => Ok (collect_issues items [])
  | _ => Raise (Exn LLMInvalidOutputError "LLM output is not a JSON array")
  end.

Definition _parse_llm_output (content : string) : result (list Issue) :=
  match parse_body content with
  | Ok issues => Ok issues
  | Raise e =>
      if isinstance e JSONDecodeError
      then Raise (Exn LLMInvalidOutputError "LLM output is not valid JSON")
      else Raise (Exn LLMInvalidOutputError
                    ("Failed to parse LLM output: " +:+ exn_msg e))
  end.

(** *** The providers *)

(** [not api_key]: unset or empty. *)
Definition key_of (name : string) : option string :=
  match getenv name with
  | Some EmptyString | None => None
  | Some api_key => Some api_key
  end.

Definition reply_issues (r : reply) : result (list Issue) :=
  match r with
  | Replied content => _parse_llm_output content
  | Failed e => Raise e
  end.

Definition _call_openai (task_prompt model : string) (timeout : Z)
    : result (list Issue) :=
  let body :=
    _ ← import_openai;
    match key_of "OPENAI_API_KEY" with
    | None => Raise (Exn ReviewerError "OPENAI_API_KEY not set")
    | Some api_key => reply_issues (openai_chat api_key model task_prompt timeout)
    end in
  match body with
  | Ok issues => Ok issues
  | Raise e =>
      if contains "timeout" (lower (exn_msg e))
      then Raise (Exn LLMTimeoutError "OpenAI API timeout")
      else Raise (Exn ReviewerError ("OpenAI API error: " +:+ exn_msg e))
  end.

Definition _call_anthropic (task_prompt model : string) (timeout : Z)
    : result (list Issue) :=
  let body :=
    _ ← import_langchain;
    match key_of "ANTHROPIC_API_KEY" with
    | None => Raise (Exn ReviewerError "ANTHROPIC_API_KEY not set")
    | Some api_key => reply_issues (anthropic_invoke api_key model task_prompt timeout)
    end in
  match body with
  | Ok issues => Ok issues
  | Raise e => Raise (Exn ReviewerError ("Anthropic (LangChain) error: " +:+ exn_msg e))
  end.

Definition _call_local (task_prompt model : string) (timeout : Z)
    : result (list Issue) :=
  _ ← import_requests;
  let endpoint :=
    default "http://localhost:8000/v1/chat/completions"
            (getenv "LOCAL_LLM_ENDPOINT") in
  match reply_issues (local_post endpoint model task_prompt timeout) with
  | Ok issues => Ok issues
  | Raise e =>
      if isinstance e RequestsTimeout
      then Raise (Exn LLMTimeoutError "Local LLM timeout")
      else Raise (Exn ReviewerError ("Local LLM error: " +:+ exn_msg e))
  end.

(** *** [call_llm] *)

Definition call_llm (pr_diff : PRDiff) (provider model : string) (timeout : Z)
    : result (list Issue) :=
  let task_prompt :=
    build_task_prompt (diff pr_diff) (title pr_diff) (description pr_diff) in
  let body :=
    if String.eqb provider "openai" then _call_openai task_prompt model timeout
    else if String.eqb provider "anthropic" then _call_anthropic task_prompt model timeout
    else if String.eqb provider "local" then _call_local task_prompt model timeout
    else Raise (Exn ReviewerError ("Unsupported LLM provider: " +:+ provider)) in
  match body with
  | Ok issues => Ok issues
  | Raise e =>
      if isinstance e LLMTimeoutError || isinstance e LLMInvalidOutputError
         || isinstance e ReviewerError
      then Raise e
      else Raise (Exn ReviewerError ("LLM call failed: " +:+ exn_msg e))
  end.

(** *** [review_pr] *)

(** [severity_counts[issue.severity] += 1] over all issues. *)
Fixpoint count_severities (all_issues : list Issue)
    (severity_counts : gmap string nat) : result (gmap string nat) :=
  match all_issues with
  | [] => Ok severity_counts
  | issue :: rest =>
      match severity_counts !! severity issue with
      | Some n =>
          count_severities rest (<[severity issue := (n + 1)%nat]> severity_counts)
      | None => Raise (Exn KeyError (severity issue))
      end
  end.

(** [d[k]] *)
Definition getitem (d : gmap string nat) (k : string) : result nat :=
  match d !! k with
  | Some n => Ok n
  | None => Raise (Exn KeyError k)
  end.

(** The outcome of step 2: the LLM issues, [llm_used], [model_name]. *)
Definition llm_step (pr_diff : PRDiff) (use_llm : bool)
    (llm_provider llm_model : string)
    : result (list Issue * bool * option string) :=
  if use_llm then
    match call_llm pr_diff llm_provider llm_model 30 with
    | Ok llm_issues => Ok (llm_issues, true, Some llm_model)
    | Raise e =>
        if isinstance e LLMTimeoutError then Ok ([], false, None)
        else if isinstance e LLMInvalidOutputError then Ok ([], false, None)
        else if isinstance e ReviewerError then Ok ([], false, None)
        else Raise e
    end
  else Ok ([], false, None).

Definition review_pr (pr_diff : PRDiff) (use_llm : bool)
    (llm_provider llm_model : string) : result ReviewOutput :=
  rule_issues ← run_all_rules (diff pr_diff);
  '(llm_issues, llm_used, model_name) ←
    llm_step pr_diff use_llm llm_provider llm_model;
  let all_issues := rule_issues ++ llm_issues in
  severity_counts ←
    count_severities all_issues
      (<["low" := 0%nat]> (<["medium" := 0%nat]> (<["high" := 0%nat]> ∅)));
  high ← getitem severity_counts "high";
  medium ← getitem severity_counts "medium";
  low ← getitem severity_counts "low";
  let summary :=
    {| total_issues := length all_issues;
       high_severity := high;
       medium_severity := medium;
       low_severity := low;
       review_time_seconds := elapsed;
       llm_used := llm_used;
       model_name := model_name |} in
  Ok {| out_pr_number := pr_number pr_diff;
        issues := all_issues;
        summary := summary;
        metadata :=
          <["prompt_version" := Some PROMPT_VERSION]>
            (<["llm_provider" := if llm_used then Some llm_provider else None]> ∅) |}.

(** *** Vocabulary of the statements about the gateway *)

(** What one element of the decoded array contributes: the issue it
    builds, when it builds one whose confidence reaches the threshold. *)
Definition kept (item : pyval) : option Issue :=
  match Issue_of item with
  | Ok issue =>
      if (CONFIDENCE_THRESHOLD <=? confidence issue)%float then Some issue else None
  | Raise _ => None
  end.

(** The elements that are kept, in the order of the array. *)
Definition survivors (items : list pyval) : list Issue := omap kept items.

(** What step 2 of [review_pr] settles on: the issues of the LLM with
    [llm_used = True] and the model name when the call returned, no
    issue with [llm_used = False] when it was not made or raised. *)
Definition llm_outcome (pr_diff : PRDiff) (use_llm : bool)
    (llm_provider llm_model : string) : list Issue * bool * option string :=
  if use_llm then
    match call_llm pr_diff llm_provider llm_model 30 with
    | Ok llm_issues => (llm_issues, true, Some llm_model)
    | Raise _ => ([], false, None)
    end
  else ([], false, None).

End Gateway.

(** The text handed to the JSON decoder: the content without the
    whitespace around it; when that starts with a fence, what stands
    between this fence and the next one (or the end), without a leading
    [json]. *)
Definition without_json_tag (inner : string) : string :=
  if String.prefix "json" inner then drop 4 inner else inner.

Definition remaining_text (content : string) : string :=
  let text := strip content in
  if String.prefix fence text
  then without_json_tag (Spec.before fence (drop 3 text))
  else text.

(** The same with the tag read as the sentence of the specification
    words it, any language tag: the run of word characters that follows
    the opening fence is removed, whatever it spells. *)
Fixpoint without_language_tag (inner : string) : string :=
  match inner with
  | EmptyString => EmptyString
  | String c rest => if isword c then without_language_tag rest else inner
  end.

Definition remaining_text_any_tag (content : string) : string :=
  let text := strip content in
  if String.prefix fence text
  then without_language_tag (Spec.before fence (drop 3 text))
  else text.

End Reviewer.

(* ================================================================== *)
(** ** Sample inputs *)
(* ================================================================== *)

Module Samples.
Import PyStr Exc Models Reviewer.

#[local] Set Warnings "-inexact-float".

(** A request carrying the sample diff of the [/demo] endpoint. *)
Definition demo_request : PRDiff :=
  {| pr_number := 9999;
     title := "Demo: Auth endpoint with intentional security issues";
     description := "";
     author := "demo";
     files_changed := ["auth.py"];
     diff := Api.sample_diff;
     commit_message := "" |}.

(** A diff of [n] added lines, as [test_pr_size_large] builds one. *)
Definition added (n : nat) : string := join newline (repeat "+x" n).

(** One added function of a hundred lines below its header. *)
Definition long_function : list string :=
  "+def handler(request):" :: repeat "+    pass" 100.

(** The same with a second function header. *)
Definition two_functions : list string :=
  "+def handler(request):" :: "+def helper():" :: repeat "+    pass" 100.

(** An empty array in a fence tagged [python]. *)
Definition python_fenced : string :=
  "```python" +:+ newline +:+ "[]" +:+ newline +:+ "```".

(** An empty array in a fence tagged [json], with whitespace around. *)
Definition json_fenced : string :=
  "  ```json" +:+ newline +:+ "[]" +:+ newline +:+ "```" +:+ newline.

(** Surroundings without any provider configured: no environment
    variable is set, the libraries import, no call gets through. *)
Definition no_env : string -> option string := fun _ => None.
Definition imported : result unit := Ok tt.
Definition unreachable : string -> string -> string -> Z -> reply :=
  fun _ _ _ _ => Failed (Exn OtherException "Connection error.").

(** A decoder that knows the empty array only. *)
Definition decode_empty_array (text : string) : result pyval :=
  if String.eqb (strip text) "[]" then Ok (PList [])
  else Raise (Exn JSONDecodeError "Expecting value").

(** A decoder given by the values of the texts it knows. *)
Fixpoint decode_table (table : list (string * pyval)) (text : string)
    : result pyval :=
  match table with
  | [] => Raise (Exn JSONDecodeError "Expecting value")
  | (known, value) :: rest =>
      if String.eqb (strip text) known then Ok value else decode_table rest text
  end.

(** Conversions that refuse every value not already of the field's type. *)
Definition refuse {A : Type} : pyval -> option A := fun _ => None.

(** The keywords of one issue as the model replies with them. *)
Definition issue_object (type severity message : string) (confidence : float)
    : pyval :=
  PDict (<["type" := PStr type]>
        (<["severity" := PStr severity]>
        (<["message" := PStr message]>
        (<["confidence" := PFloat confidence]>
        (<["action" := PStr "review"]> ∅))))).

(** An element with a severity outside the enumeration, and one
    without the required fields. *)
Definition critical_object : pyval :=
  issue_object "security" "critical" "Invented severity" 0.9.

Definition incomplete_object : pyval :=
  PDict (<["type" := PStr "invalid"]> (<["missing_fields" := PBool true]> ∅)).

End Samples.

(* ================================================================== *)
(** ** Vocabulary of the further statements about patterns *)
(* ================================================================== *)

Module ReSpec.
Import PyStr Re.

(** The character just before the position reached after reading [a]
    from a position whose previous character is [prev]. *)
Fixpoint prev_after (prev : option ascii) (a : string) : option ascii :=
  match a with
  | EmptyString => prev
  | String c a' => prev_after (Some c) a'
  end.

(** A pattern without [\b] and [^]: whether it matches at a position
    does not depend on what stands before the position. *)
Definition context_free (p : pattern) : bool :=
  forallb (fun n => match n with Chars _ _ => true | _ => false end) p.

(** Every character of the string passes the test. *)
Fixpoint all_chars (f : ascii -> bool) (s : string) : bool :=
  match s with
  | EmptyString => true
  | String c s' => if f c then all_chars f s' else false
  end.

End ReSpec.

(* ================================================================== *)
(** ** Vocabulary of the further statements about the rules *)
(* ================================================================== *)

Module RulesSpec.
Import PyStr Re Models Rules ReSpec.


(** One of the two quote characters. *)
Definition is_quote (c : ascii) : bool :=
  Ascii.eqb c dquote || Ascii.eqb c squote.


Definition not_space (c : ascii) : bool := negb (isspace c).

(** The messages of a list of issues, in order. *)
Definition messages (l : list Issue) : list string := map message l.


(** [from m import *] with the given runs of whitespace. *)
Definition star_import (w1 m w2 w3 : string) : string :=
  "from" +:+ w1 +:+ m +:+ w2 +:+ "import" +:+ w3 +:+ "*".


End RulesSpec.

(* ================================================================== *)
(** ** Further sample surroundings *)
(* ================================================================== *)

Module MoreSamples.
Import PyStr Exc Models Reviewer.

(** An environment in which every variable is set to the same value. *)
Definition all_set : string -> option string := fun _ => Some "configured".

(** A provider that replies with the given text. *)
Definition replying (content : string) : string -> string -> string -> Z -> reply :=
  fun _ _ _ _ => Replied content.

(** A provider whose call raises the given exception. *)
Definition failing (e : exn) : string -> string -> string -> Z -> reply :=
  fun _ _ _ _ => Failed e.

End MoreSamples.

(* ================================================================== *)
(** ** The endpoints of [api.py] *)
(* ================================================================== *)

Module ApiEndpoints.
Import PyStr Exc Api.

(** The request model: pydantic has validated the body before the
    endpoint runs. *)
Record ReviewRequest : Type := {
  pr_number : Z;
  title : string;
  description : string;
  diff : string;
}.

(** The [summary] object of a response. *)
Record summary_dict : Type := {
  total_issues : nat;
  high_severity : nat;
  medium_severity : nat;
  low_severity : nat;
  llm_used : bool;
  mode : string;
}.

(** The content of a response of [/review]. *)
Record review_dict : Type := {
  r_pr_number : Z;
  r_title : string;
  r_issues : list issue_dict;
  r_summary : summary_dict;
}.

(** How a request ends: with the response returned, with the
    [HTTPException] raised, or with another exception left to the
    framework. *)
Inductive outcome : Type :=
| JSONResponse (content : review_dict)
| HTTPException (status_code : Z) (detail : string)
| Uncaught (e : exn).

(** [counts[key]] *)
Definition getitem (counts : gmap string nat) (key : string) : result nat :=
  match counts !! key with
  | Some n => Ok n
  | None => Raise (Exn KeyError key)
  end.

(** [not request.diff]: the empty string. *)
Definition review (request : ReviewRequest) : outcome :=
  if String.eqb (diff request) "" then HTTPException 400 "diff is required"
  else
    match
      '(issues, counts) ← run_review (diff request);
      high ← getitem counts "high";
      medium ← getitem counts "medium";
      low ← getitem counts "low";
      Ok {| r_pr_number := pr_number request;
            r_title := title request;
            r_issues := issues;
            r_summary := {| total_issues := length issues;
                            high_severity := high;
                            medium_severity := medium;
                            low_severity := low;
                            llm_used := false;
                            mode := "rule-based" |} |}
    with
    | Ok content => JSONResponse content
    | Raise e => Uncaught e
    end.

End ApiEndpoints.

(* ================================================================== *)
(** ** Vocabulary of the statements about [api.py] *)
(* ================================================================== *)

Module ApiSpec.
Import PyStr Exc Api.

#[local] Set Warnings "-inexact-float".

(** How many issue dictionaries have this severity. *)
Definition with_severity (sev : string) (l : list issue_dict) : nat :=
  Spec.count (fun i => String.eqb (d_severity i) sev) l.

(** The dictionary of one entry of the pattern table. *)
Definition entry_dict (e : Re.pattern * (string * string)) : issue_dict :=
  {| d_type := "security"; d_severity := snd (snd e); d_message := fst (snd e);
     d_confidence := 1.0; d_action := "review" |}.

(** The messages of a list of issue dictionaries, in order. *)
Definition messages (l : list issue_dict) : list string := map d_message l.

(** The checks [api.py] and [app/rules.py] have in common, by the
    message each of the two gives them. *)
Definition shared_checks : list (string * string) :=
  [ ("Use of eval() detected - security risk", "Use of eval() detected");
    ("Use of exec() detected - security risk", "Use of exec() detected");
    ("Possible hardcoded password", "Possible hardcoded password");
    ("Possible hardcoded API key", "Possible hardcoded API key");
    ("pickle.load() is unsafe - use safer alternatives",
     "Use of pickle detected - consider safer alternatives") ].

End ApiSpec.

(* ================================================================== *)
(** ** The standalone demo, [demo.py] *)
(* ================================================================== *)

Module Demo.
Import PyStr Re Exc Api Reviewer.

#[local] Set Warnings "-inexact-float".

Definition check_pr_size (diff : string) (threshold : nat) : option issue_dict :=
  let lines_changed :=
    length (List.filter Rules.is_changed_line (split diff newline)) in
  if (threshold <? lines_changed)%nat then
    Some {| d_type := "pr_size"; d_severity := "medium";
            d_message := "PR has " +:+ str_of_nat lines_changed
                         +:+ " lines changed. Consider splitting for easier review.";
            d_confidence := 1.0; d_action := "review" |}
  else None.

(** The dictionary [dangerous_patterns] of [demo.py], in insertion order. *)
Definition dangerous_patterns : list (pattern * (string * string)) :=
  [ (* \beval\s*\( *)
    (Boundary :: lits "eval" ++ [Chars Many0 Space; Chars Once (Lit "(")],
     ("Use of eval() detected - security risk", "high"));
    (* \bexec\s*\( *)
    (Boundary :: lits "exec" ++ [Chars Many0 Space; Chars Once (Lit "(")],
     ("Use of exec() detected - security risk", "high"));
    (* password\s*=\s*[DQ SQ][^DQ SQ]+[DQ SQ] *)
    (lits "password" ++ Rules.quoted_assignment,
     ("Possible hardcoded password", "high"));
    (* api[_-]?key\s*=\s*[DQ SQ][^DQ SQ]+[DQ SQ] *)
    (lits "api" ++ [Chars Maybe (AnyOf ["_"; "-"]%char)] ++ lits "key"
       ++ Rules.quoted_assignment,
     ("Possible hardcoded API key", "high"));
    (* SECRET_KEY\s*=\s*[DQ SQ] *)
    (lits "SECRET_KEY"
       ++ [Chars Many0 Space; Chars Once (Lit "="); Chars Many0 Space;
           Chars Once (AnyOf [Rules.dquote; Rules.squote])],
     ("Hardcoded secret key detected", "high"));
    (* hashlib\.md5 *)
    (lits "hashlib.md5",
     ("MD5 is cryptographically broken - use SHA256 or bcrypt", "high")) ].

(** The loop is the one of [api.py]. *)
Definition check_security_patterns (diff : string) : list issue_dict :=
  scan_patterns dangerous_patterns diff [].

Definition check_import_quality (diff : string) : list issue_dict :=
  if search false Rules.star_import_pattern diff then
    [{| d_type := "style"; d_severity := "low";
        d_message := "Star import (import *) detected. Consider explicit imports.";
        d_confidence := 0.9; d_action := "review" |}]
  else [].

(** The [summary] object of the result. *)
Record summary_dict : Type := {
  total_issues : nat;
  high_severity : nat;
  medium_severity : nat;
  low_severity : nat;
}.

(** The dictionary [run_review] returns. *)
Record review_dict : Type := {
  r_pr_number : pyval;
  r_issues : list issue_dict;
  r_summary : summary_dict;
}.

(** [d[key]] *)
Definition getitem {A : Type} (d : gmap string A) (key : string) : result A :=
  match d !! key with
  | Some v => Ok v
  | None => Raise (Exn KeyError key)
  end.

(** [type(v).__name__] *)
Definition type_name (v : pyval) : string :=
  match v with
  | PNone => "NoneType"
  | PBool _ => "bool"
  | PInt _ => "int"
  | PFloat _ => "float"
  | PStr _ => "str"
  | PList _ => "list"
  | PDict _ => "dict"
  end.

(** [diff.split], the first use made of [diff]: of the values JSON
    decodes to only a string has the method, the others raise
    [AttributeError]. *)
Definition split_receiver (diff : pyval) : result string :=
  match diff with
  | PStr text => Ok text
  | _ => Raise (Exn OtherException
                  ("'" +:+ type_name diff +:+ "' object has no attribute 'split'"))
  end.

Definition run_review (pr_data : gmap string pyval) : result review_dict :=
  diff ← getitem pr_data "diff";
  diff ← split_receiver diff;
  let issues := [] in
  let issues :=
    match check_pr_size diff 500 with
    | Some size_issue => issues ++ [size_issue]
    | None => issues
    end in
  let issues := issues ++ check_security_patterns diff in
  let issues := issues ++ check_import_quality diff in
  severity_counts ←
    Api.count_severities issues
      (<["low" := 0%nat]> (<["medium" := 0%nat]> (<["high" := 0%nat]> ∅)));
  pr_number ← getitem pr_data "pr_number";
  high ← getitem severity_counts "high";
  medium ← getitem severity_counts "medium";
  low ← getitem severity_counts "low";
  Ok {| r_pr_number := pr_number;
        r_issues := issues;
        r_summary := {| total_issues := length issues;
                        high_severity := high;
                        medium_severity := medium;
                        low_severity := low |} |}.

End Demo.

(* ================================================================== *)
(** ** Vocabulary of the statements about what is reported *)
(* ================================================================== *)

Module MatchSpec.
Import PyStr Re ReSpec.

(** The lower-case letters of Latin-1 that have an upper-case form in
    it. *)
Definition is_lower_letter (c : ascii) : bool :=
  let n := code c in
  between 97 122 n || (between 224 254 n && negb (n =? 247)%N).

(** A function header as [check_code_complexity] reads an added line:
    [def] after optional indentation, the name, and the opening
    parenthesis. *)
Definition function_header (indent w1 name w2 rest : string) : string :=
  "+" +:+ indent +:+ "def" +:+ w1 +:+ name +:+ w2 +:+ "(" +:+ rest.

End MatchSpec.

(* ================================================================== *)
(** ** Facts about the string primitives *)
(* ================================================================== *)

Module PyStrFacts.
Import PyStr Spec.

Lemma str_app_nil_l (s : string) : "" +:+ s = s.
Proof. reflexivity. Qed.

Lemma str_app_cons (c : ascii) (a b : string) : String c a +:+ b = String c (a +:+ b).
Proof. reflexivity. Qed.

Lemma str_app_nil_r (s : string) : s +:+ "" = s.
Proof.
  induction s as [|c s IH]; [reflexivity | now rewrite str_app_cons, IH].
Qed.

Lemma str_app_assoc (a b c : string) : (a +:+ b) +:+ c = a +:+ (b +:+ c).
Proof.
  induction a as [|x a IH]; [reflexivity | now rewrite !str_app_cons, IH].
Qed.

Lemma str_length_app (a b : string) :
  String.length (a +:+ b) = (String.length a + String.length b)%nat.
Proof.
  induction a as [|c a IH]; [reflexivity|].
  rewrite str_app_cons. cbn [String.length]. now rewrite IH.
Qed.

Lemma prefix_app (p s : string) : String.prefix p (p +:+ s) = true.
Proof.
  induction p as [|c p IH].
  - rewrite str_app_nil_l. now destruct s.
  - rewrite str_app_cons. simpl.
    destruct (ascii_dec c c) as [_|ne]; [exact IH | now elim ne].
Qed.

Lemma prefix_split (p s : string) :
  String.prefix p s = true -> s = p +:+ drop (String.length p) s.
Proof.
  revert s; induction p as [|c p IH]; intros s H.
  - reflexivity.
  - destruct s as [|a s]; simpl in H; [discriminate|].
    destruct (ascii_dec c a) as [->|]; [|discriminate].
    rewrite str_app_cons. cbn [String.length drop]. now rewrite <- IH.
Qed.

Lemma prefix_char (c a : ascii) (s : string) :
  String.prefix (String c "") (String a s) = Ascii.eqb c a.
Proof.
  simpl. destruct (ascii_dec c a) as [->|ne].
  - rewrite Ascii.eqb_refl. now destruct s.
  - symmetry. now apply Ascii.eqb_neq.
Qed.

(** *** [split] *)

Lemma split_go_nonempty (sep : string) (skip : nat) (cur s : string) :
  exists x r, split_go sep skip cur s = x :: r.
Proof.
  revert skip cur; induction s as [|c s IH]; intros skip cur; cbn [split_go].
  - eauto.
  - destruct skip; [|apply IH].
    destruct (String.prefix sep (String c s)); [eauto | apply IH].
Qed.

(** Passing over the rest of a separator. *)
Lemma split_go_skip (sep p : string) (cur s : string) :
  split_go sep (String.length p) cur (p +:+ s) = split_go sep 0 cur s.
Proof.
  induction p as [|c p IH]; [reflexivity|].
  rewrite str_app_cons. cbn [String.length split_go]. exact IH.
Qed.

(** A separator at the head closes the current piece. *)
Lemma split_go_sep (c : ascii) (sep' cur rest : string) :
  split_go (String c sep') 0 cur (String c sep' +:+ rest)
  = cur :: split_go (String c sep') 0 "" rest.
Proof.
  rewrite str_app_cons. cbn [split_go]. rewrite <- str_app_cons, prefix_app.
  cbn [String.length]. rewrite Nat.sub_1_r. cbn [Nat.pred].
  now rewrite split_go_skip.
Qed.

(** The first piece is what stands before the first separator. *)
Lemma split_go_head (sep cur s : string) :
  exists r, split_go sep 0 cur s = (cur +:+ before sep s) :: r.
Proof.
  revert cur; induction s as [|c s IH]; intros cur.
  - exists []. cbn [split_go before]. now rewrite str_app_nil_r.
  - cbn [split_go before].
    destruct (String.prefix sep (String c s)).
    + eexists. now rewrite str_app_nil_r.
    + destruct (IH (cur +:+ String c "")) as [r Hr].
      exists r. rewrite Hr. now rewrite str_app_assoc.
Qed.

(** A piece without the separator character is read through. *)
Lemma split_go_line (c : ascii) (cur l tail : string) :
  has_char c l = false ->
  split_go (String c "") 0 cur (l +:+ tail)
  = split_go (String c "") 0 (cur +:+ l) tail.
Proof.
  revert cur; induction l as [|a l IH]; intros cur H.
  - now rewrite str_app_nil_l, str_app_nil_r.
  - simpl in H. destruct (Ascii.eqb c a) eqn:E; [discriminate|].
    rewrite str_app_cons. cbn [split_go]. rewrite prefix_char, E.
    rewrite IH by assumption. now rewrite str_app_assoc.
Qed.

(** Splitting joined lines at the line feeds gives the lines back. *)
Lemma split_join_lines (l : string) (lines : list string) :
  Forall is_line (l :: lines) ->
  split (join newline (l :: lines)) newline = l :: lines.
Proof.
  unfold split. revert l; induction lines as [|l2 lines IH]; intros l H.
  - inversion H as [|? ? Hl _]; subst. cbn [join].
    pose proof (split_go_line _ "" l "" Hl) as E.
    rewrite str_app_nil_r, str_app_nil_l in E. unfold newline. now rewrite E.
  - inversion H as [|? ? Hl Hrest]; subst.
    change (join newline (l :: l2 :: lines))
      with (l +:+ newline +:+ join newline (l2 :: lines)).
    specialize (IH l2 Hrest). unfold newline in *.
    rewrite (split_go_line _ "" l _ Hl), split_go_sep, str_app_nil_l.
    now f_equal.
Qed.

Lemma split_empty (sep : string) : split "" sep = [""].
Proof. reflexivity. Qed.

(** A text that starts with the separator splits into an empty first
    piece and, second, the text up to the next separator. *)
Lemma split_second (c : ascii) (sep' text : string) :
  String.prefix (String c sep') text = true ->
  exists r,
    split text (String c sep')
    = "" :: before (String c sep') (drop (String.length (String c sep')) text) :: r.
Proof.
  intros H. pose proof (prefix_split _ _ H) as E.
  remember (drop (String.length (String c sep')) text) as rest eqn:R.
  clear R. subst text. unfold split. rewrite split_go_sep.
  destruct (split_go_head (String c sep') "" rest) as [r Hr].
  exists r. now rewrite Hr.
Qed.

(** *** [strip] *)

Lemma lstrip_spaces (ws s : string) :
  all_space ws = true -> lstrip (ws +:+ s) = lstrip s.
Proof.
  induction ws as [|c ws IH]; [reflexivity|].
  rewrite str_app_cons. cbn [all_space lstrip].
  destruct (isspace c); [exact IH | discriminate].
Qed.

Lemma rstrip_all_space (ws : string) : all_space ws = true -> rstrip ws = "".
Proof.
  induction ws as [|c ws IH]; cbn [all_space rstrip]; [reflexivity|].
  destruct (isspace c) eqn:E; [|discriminate].
  intros H. now rewrite (IH H).
Qed.

Lemma rstrip_spaces (s ws : string) :
  all_space ws = true -> rstrip (s +:+ ws) = rstrip s.
Proof.
  intros H. induction s as [|c s IH].
  - now apply rstrip_all_space.
  - rewrite str_app_cons. cbn [rstrip]. now rewrite IH.
Qed.

Lemma lstrip_decompose (s : string) :
  exists ws, all_space ws = true /\ s = ws +:+ lstrip s.
Proof.
  induction s as [|c s (ws & Hws & IH)]; cbn [lstrip].
  - now exists "".
  - destruct (isspace c) eqn:E.
    + exists (String c ws). cbn [all_space]. rewrite E, str_app_cons.
      split; [assumption | now f_equal].
    + now exists "".
Qed.

Lemma rstrip_decompose (s : string) :
  exists ws, all_space ws = true /\ s = rstrip s +:+ ws.
Proof.
  induction s as [|c s (ws & Hws & IH)]; cbn [rstrip].
  - now exists "".
  - destruct (rstrip s) as [|a r] eqn:R.
    + rewrite str_app_nil_l in IH. subst ws. destruct (isspace c) eqn:E.
      * exists (String c s). cbn [all_space]. rewrite E. now split.
      * exists s. split; [assumption | reflexivity].
    + exists ws. split; [assumption|]. rewrite str_app_cons. now f_equal.
Qed.

Lemma rstrip_idem (s : string) : rstrip (rstrip s) = rstrip s.
Proof.
  induction s as [|c s IH]; cbn [rstrip]; [reflexivity|].
  destruct (rstrip s) as [|a r] eqn:R.
  - destruct (isspace c) eqn:E; cbn [rstrip]; [reflexivity | now rewrite E].
  - cbn [rstrip] in *. now rewrite IH.
Qed.

Lemma lstrip_idem (s : string) : lstrip (lstrip s) = lstrip s.
Proof.
  induction s as [|c s IH]; cbn [lstrip]; [reflexivity|].
  destruct (isspace c) eqn:E; [exact IH | cbn [lstrip]; now rewrite E].
Qed.

(** A left-stripped text does not start with whitespace. *)
Lemma lstrip_fixed_head (c : ascii) (t : string) :
  lstrip (String c t) = String c t -> isspace c = false.
Proof.
  cbn [lstrip]. destruct (isspace c); [|reflexivity].
  intros H. exfalso. destruct (lstrip_decompose t) as (ws & _ & Hd).
  rewrite H in Hd. apply (f_equal String.length) in Hd.
  rewrite str_length_app in Hd. cbn [String.length] in Hd. lia.
Qed.

(** Stripping the right end leaves a left-stripped text left-stripped. *)
Lemma lstrip_rstrip (t : string) : lstrip t = t -> lstrip (rstrip t) = rstrip t.
Proof.
  destruct t as [|c t]; [reflexivity|]. intros H.
  apply lstrip_fixed_head in H.
  cbn [rstrip]. destruct (rstrip t); [rewrite H|]; cbn [lstrip]; now rewrite H.
Qed.

Lemma strip_trimmed (s : string) : trimmed (strip s).
Proof.
  unfold trimmed, strip. split.
  - apply lstrip_rstrip, lstrip_idem.
  - apply rstrip_idem.
Qed.

(** [strip] removes whitespace from both ends and nothing else. *)
Lemma strip_decompose (s : string) :
  exists ws1 ws2,
    all_space ws1 = true /\ all_space ws2 = true /\ s = ws1 +:+ strip s +:+ ws2.
Proof.
  destruct (lstrip_decompose s) as (ws1 & H1 & E1).
  destruct (rstrip_decompose (lstrip s)) as (ws2 & H2 & E2).
  exists ws1, ws2. repeat split; try assumption.
  unfold strip. now rewrite <- E2.
Qed.

Lemma lstrip_all_space (ws : string) : all_space ws = true -> lstrip ws = "".
Proof.
  induction ws as [|c ws IH]; cbn [all_space lstrip]; [reflexivity|].
  destruct (isspace c); [exact IH | discriminate].
Qed.

Lemma strip_surrounded (ws1 core ws2 : string) :
  all_space ws1 = true -> all_space ws2 = true -> trimmed core ->
  strip (ws1 +:+ core +:+ ws2) = core.
Proof.
  intros H1 H2 [Hl Hr]. unfold strip. rewrite lstrip_spaces by assumption.
  destruct core as [|c core].
  - rewrite str_app_nil_l, lstrip_all_space by assumption. reflexivity.
  - apply lstrip_fixed_head in Hl.
    rewrite str_app_cons. cbn [lstrip]. rewrite Hl, <- str_app_cons.
    now rewrite rstrip_spaces.
Qed.

(** *** [contains] *)

Lemma contains_app (sub a b : string) : contains sub (a +:+ sub +:+ b) = true.
Proof.
  induction a as [|c a IH].
  - rewrite str_app_nil_l. destruct (sub +:+ b) eqn:E; cbn [contains];
      rewrite <- E, prefix_app; reflexivity.
  - rewrite str_app_cons. cbn [contains]. rewrite IH.
    now destruct (String.prefix _ _).
Qed.

End PyStrFacts.

(* ================================================================== *)
(** ** Facts about the rule engine *)
(* ================================================================== *)

Module RulesFacts.
Import PyStr Re Exc Models Rules Spec PyStrFacts.

#[local] Set Warnings "-inexact-float".

Lemma prefix_iff (p s : string) :
  String.prefix p s = true <-> exists r, s = p +:+ r.
Proof.
  split.
  - intros H. eexists. now apply prefix_split.
  - intros [r ->]. apply prefix_app.
Qed.

(** The filter of the size check, read as the sentence reads it. *)
Lemma is_changed_line_iff (line : string) :
  is_changed_line line = true <->
  ((exists r, line = "+" +:+ r) \/ (exists r, line = "-" +:+ r))
  /\ ~ ((exists r, line = "+++" +:+ r) \/ (exists r, line = "---" +:+ r)).
Proof.
  unfold is_changed_line, startswith_any, startswith. cbn [existsb].
  rewrite andb_true_iff, negb_true_iff, !orb_false_r, orb_true_iff, orb_false_iff.
  rewrite <- !prefix_iff.
  destruct (String.prefix "+++" line), (String.prefix "---" line);
    intuition congruence.
Qed.

Lemma is_added_line_iff (line : string) :
  is_added_line line = true <->
  (exists r, line = "+" +:+ r) /\ ~ (exists r, line = "+++" +:+ r).
Proof.
  unfold is_added_line, startswith.
  rewrite andb_true_iff, negb_true_iff, <- !prefix_iff.
  destruct (String.prefix "+++" line); intuition congruence.
Qed.

(** The lines of a diff, when it is given as joined lines. *)
Lemma split_join (lines : list string) :
  Forall is_line lines ->
  split (join newline lines) newline = match lines with [] => [""] | _ => lines end.
Proof.
  destruct lines as [|l lines]; [reflexivity|]. apply split_join_lines.
Qed.

Lemma lines_changed_join (lines : list string) :
  Forall is_line lines ->
  lines_changed (join newline lines) = count is_changed_line lines.
Proof.
  intros H. unfold lines_changed. rewrite split_join by assumption.
  now destruct lines.
Qed.

Lemma added_lines_join (lines : list string) :
  Forall is_line lines ->
  added_lines (join newline lines) = List.filter is_added_line lines.
Proof.
  intros H. unfold added_lines. rewrite split_join by assumption.
  now destruct lines.
Qed.

(** *** Building the issues never fails *)

Lemma Issue_new_ok (type severity message : string) (confidence : float) :
  is_literal severity_literal severity = true ->
  confidence_ok confidence = true ->
  Issue_new type severity message confidence "review"
  = Ok (rule_issue type severity message confidence).
Proof.
  intros Hs Hc. unfold Issue_new, validated, issue_ok, rule_issue.
  cbn [Models.severity Models.confidence Models.action].
  now rewrite Hs, Hc.
Qed.

Lemma check_pr_size_eq (diff : string) (threshold : nat) :
  check_pr_size diff threshold
  = if (threshold <? lines_changed diff)%nat
    then Ok (Some (rule_issue "pr_size" "medium"
                     (pr_size_message (lines_changed diff)) 1))
    else Ok None.
Proof.
  unfold check_pr_size. destruct (_ <? _)%nat; [|reflexivity].
  now rewrite Issue_new_ok.
Qed.

Lemma scan_patterns_eq (table : list (pattern * (string * string)))
    (diff : string) (acc : list Issue) :
  Forall (fun e => is_literal severity_literal (snd (snd e)) = true) table ->
  scan_patterns table diff acc
  = Ok (acc ++ map entry_issue (List.filter (entry_found diff) table)).
Proof.
  intros H. revert acc. induction H as [|[pat [msg sev]] table Hsev _ IH]; intros acc.
  - cbn. now rewrite app_nil_r.
  - cbn [scan_patterns List.filter]. unfold entry_found at 1. cbn [fst].
    destruct (search true pat diff).
    + rewrite Issue_new_ok by (exact Hsev || reflexivity).
      cbn [mbind result_bind]. rewrite IH. cbn [map].
      now rewrite <- app_assoc.
    + apply IH.
Qed.

Lemma dangerous_patterns_severities :
  Forall (fun e => is_literal severity_literal (snd (snd e)) = true)
         dangerous_patterns.
Proof. repeat constructor. Qed.

Lemma check_security_patterns_eq (diff : string) :
  check_security_patterns diff
  = Ok (map entry_issue (List.filter (entry_found diff) dangerous_patterns)).
Proof.
  unfold check_security_patterns.
  now rewrite scan_patterns_eq by apply dangerous_patterns_severities.
Qed.

Lemma check_import_quality_eq (diff : string) :
  check_import_quality diff
  = Ok (if search false star_import_pattern diff
        then [rule_issue "style" "low" star_import_message 0.9] else []).
Proof.
  unfold check_import_quality. destruct (search _ _ _); [|reflexivity].
  now rewrite Issue_new_ok.
Qed.

Lemma check_code_complexity_eq (diff : string) :
  check_code_complexity diff
  = Ok (if (100 <? length (added_lines diff))%nat
           && (function_count (added_lines diff) =? 1)%nat
        then [rule_issue "complexity" "medium" complexity_message 0.8] else []).
Proof.
  unfold check_code_complexity.
  destruct (_ <? _)%nat; [|reflexivity].
  destruct (_ =? _)%nat; [|reflexivity].
  now rewrite Issue_new_ok.
Qed.

(** The issues of the four rules, in the order of the registry. *)
Lemma run_all_rules_eq (diff : string) :
  run_all_rules diff
  = Ok ((if (500 <? lines_changed diff)%nat
         then [rule_issue "pr_size" "medium" (pr_size_message (lines_changed diff)) 1]
         else [])
        ++ map entry_issue (List.filter (entry_found diff) dangerous_patterns)
        ++ (if search false star_import_pattern diff
            then [rule_issue "style" "low" star_import_message 0.9] else [])
        ++ (if (100 <? length (added_lines diff))%nat
               && (function_count (added_lines diff) =? 1)%nat
            then [rule_issue "complexity" "medium" complexity_message 0.8] else [])).
Proof.
  unfold run_all_rules, RULE_REGISTRY. cbn [run_rules].
  rewrite check_pr_size_eq, check_security_patterns_eq,
    check_import_quality_eq, check_code_complexity_eq.
  destruct (500 <? lines_changed diff)%nat;
    cbn [fmap result_fmap mbind result_bind collect app];
    now rewrite ?app_assoc.
Qed.

(** *** Counting the issues of one pattern *)

Lemma count_app {A : Type} (f : A -> bool) (l1 l2 : list A) :
  count f (l1 ++ l2) = (count f l1 + count f l2)%nat.
Proof. unfold count. now rewrite List.filter_app, length_app. Qed.

Lemma count_entry_issues (diff : string) (msg : string)
    (table : list (pattern * (string * string))) :
  ~ In msg (map (fun e => fst (snd e)) table) ->
  count (fun i => String.eqb (message i) msg)
        (map entry_issue (List.filter (entry_found diff) table)) = 0%nat.
Proof.
  induction table as [|e table IH]; intros Hn; [reflexivity|].
  cbn [map In] in Hn. cbn [List.filter].
  destruct (entry_found diff e).
  - cbn [map]. unfold count in *. cbn [List.filter entry_issue rule_issue message].
    destruct (String.eqb_spec (fst (snd e)) msg) as [E|_]; [tauto|].
    apply IH. tauto.
  - apply IH. tauto.
Qed.

(** With distinct messages in the table, the issues carrying the
    message of an entry are one if its pattern is found, none if not. *)
Lemma count_entry (diff : string) (table : list (pattern * (string * string)))
    (e : pattern * (string * string)) :
  List.NoDup (map (fun e => fst (snd e)) table) ->
  In e table ->
  count (fun i => String.eqb (message i) (fst (snd e)))
        (map entry_issue (List.filter (entry_found diff) table))
  = if entry_found diff e then 1%nat else 0%nat.
Proof.
  induction table as [|e0 table IH]; intros Hnd Hin; [destruct Hin|].
  cbn [map] in Hnd. inversion Hnd as [|? ? Hnotin Hnd']; subst.
  cbn [List.filter]. destruct Hin as [->|Hin].
  - destruct (entry_found diff e).
    + cbn [map]. change (?x :: ?l) with ([x] ++ l). rewrite count_app.
      rewrite count_entry_issues by assumption.
      unfold count. cbn [List.filter entry_issue rule_issue message].
      now rewrite String.eqb_refl.
    + now apply count_entry_issues.
  - assert (Hne : fst (snd e0) <> fst (snd e)).
    { intros E. apply Hnotin. rewrite E.
      now apply (in_map (fun e => fst (snd e))). }
    destruct (entry_found diff e0).
    + cbn [map]. change (?x :: ?l) with ([x] ++ l). rewrite count_app.
      rewrite IH by assumption.
      unfold count. cbn [List.filter entry_issue rule_issue message].
      destruct (String.eqb_spec (fst (snd e0)) (fst (snd e))); [tauto|reflexivity].
    + now apply IH.
Qed.

Lemma dangerous_patterns_messages :
  List.NoDup (map (fun e => fst (snd e)) dangerous_patterns).
Proof.
  cbn [map dangerous_patterns fst snd].
  repeat (constructor; [cbn [In]; intuition discriminate|]). constructor.
Qed.

End RulesFacts.

(* ================================================================== *)
(** ** Facts about floating-point comparison *)
(* ================================================================== *)

Module FloatFacts.

Lemma SFcompare_swap (a b : SpecFloat.spec_float) :
  SpecFloat.SFcompare b a = option_map CompOpp (SpecFloat.SFcompare a b).
Proof.
  destruct a as [sa|sa| |sa ma ea], b as [sb|sb| |sb mb eb]; cbn;
    try reflexivity; try (destruct sa; reflexivity); try (destruct sb; reflexivity);
    try (destruct sa, sb; reflexivity).
  change (Pos.compare_cont Eq mb ma) with (Pos.compare mb ma).
  change (Pos.compare_cont Eq ma mb) with (Pos.compare ma mb).
  rewrite (Z.compare_antisym ea eb), (Pos.compare_antisym ma mb).
  destruct sa, sb; try reflexivity;
    destruct (ea ?= eb)%Z; cbn; try reflexivity;
    destruct (ma ?= mb)%positive; reflexivity.
Qed.

(** Among numbers (no NaN), [t <= c] fails exactly when [c < t]. *)
Lemma leb_negb_ltb (t c : float) :
  (c <=? c)%float = true -> (t <=? t)%float = true ->
  (t <=? c)%float = negb (c <? t)%float.
Proof.
  rewrite !FloatAxioms.leb_spec, FloatAxioms.ltb_spec.
  unfold SpecFloat.SFleb, SpecFloat.SFltb.
  rewrite (SFcompare_swap (Prim2SF c) (Prim2SF t)).
  destruct (Prim2SF t) as [st|st| |st mt et], (Prim2SF c) as [sc|sc| |sc mc ec];
    try (cbn; discriminate).
  all: intros _ _; cbn; try reflexivity;
    try (destruct st; reflexivity); try (destruct sc; reflexivity);
    try (destruct st, sc; reflexivity).
  destruct st, sc; try reflexivity;
    destruct (ec ?= et)%Z; try reflexivity;
    destruct (Pos.compare_cont Eq mc mt); reflexivity.
Qed.

(** A number between two numbers is a number. *)
Lemma leb_refl_of_leb (a c : float) : (a <=? c)%float = true -> (c <=? c)%float = true.
Proof.
  rewrite !FloatAxioms.leb_spec. unfold SpecFloat.SFleb.
  destruct (Prim2SF c) as [sc|sc| |sc mc ec].
  - reflexivity.
  - now destruct sc.
  - destruct (Prim2SF a) as [sa|sa| |sa ma ea]; cbn; discriminate.
  - intros _. cbn. rewrite Z.compare_refl, Pos.compare_cont_refl. now destruct sc.
Qed.

End FloatFacts.

(* ================================================================== *)
(** ** Facts about the gateway and the orchestrator *)
(* ================================================================== *)

Module ReviewerFacts.
Import PyStr Exc Models Rules Prompts Spec Reviewer PyStrFacts RulesFacts.

#[local] Set Warnings "-inexact-float".

(** *** The text handed to the decoder *)

Lemma strip_fence_eq (content : string) :
  strip_fence (strip content) = Ok (remaining_text content).
Proof.
  unfold strip_fence, remaining_text, startswith. cbv zeta.
  destruct (String.prefix fence (strip content)) eqn:F; [|reflexivity].
  destruct (split_second _ _ _ F) as [r Hr]. unfold fence in *. rewrite Hr.
  reflexivity.
Qed.

Section Surroundings.

Variable json_loads : string -> result pyval.
Variable lax_float : pyval -> option float.
Variable lax_int : pyval -> option Z.
Variable lax_str : pyval -> option string.
Variable getenv : string -> option string.
Variable import_openai import_langchain import_requests : result unit.
Variable openai_chat anthropic_invoke local_post : string -> string -> string -> Z -> reply.
Variable elapsed : float.

#[local] Abbreviation Issue_of := (Issue_of lax_float lax_int lax_str).
#[local] Abbreviation kept := (kept lax_float lax_int lax_str).
#[local] Abbreviation survivors := (survivors lax_float lax_int lax_str).
#[local] Abbreviation collect_issues := (collect_issues lax_float lax_int lax_str).
#[local] Abbreviation parse_body := (parse_body json_loads lax_float lax_int lax_str).
#[local] Abbreviation _parse_llm_output :=
  (_parse_llm_output json_loads lax_float lax_int lax_str).
#[local] Abbreviation reply_issues := (reply_issues json_loads lax_float lax_int lax_str).
#[local] Abbreviation _call_openai :=
  (_call_openai json_loads lax_float lax_int lax_str getenv import_openai openai_chat).
#[local] Abbreviation _call_anthropic :=
  (_call_anthropic json_loads lax_float lax_int lax_str getenv import_langchain
     anthropic_invoke).
#[local] Abbreviation _call_local :=
  (_call_local json_loads lax_float lax_int lax_str getenv import_requests local_post).
#[local] Abbreviation call_llm :=
  (call_llm json_loads lax_float lax_int lax_str getenv import_openai
     import_langchain import_requests openai_chat anthropic_invoke local_post).
#[local] Abbreviation llm_step :=
  (llm_step json_loads lax_float lax_int lax_str getenv import_openai
     import_langchain import_requests openai_chat anthropic_invoke local_post).
#[local] Abbreviation llm_outcome :=
  (llm_outcome json_loads lax_float lax_int lax_str getenv import_openai
     import_langchain import_requests openai_chat anthropic_invoke local_post).
#[local] Abbreviation review_pr :=
  (review_pr json_loads lax_float lax_int lax_str getenv import_openai
     import_langchain import_requests openai_chat anthropic_invoke local_post elapsed).

(** *** Validation *)

Lemma validated_ok (i j : Issue) : validated i = Ok j -> j = i /\ issue_ok i = true.
Proof.
  unfold validated. destruct (issue_ok i); [|discriminate].
  intros [= <-]. now split.
Qed.

Lemma Issue_of_ok (item : pyval) (i : Issue) :
  Issue_of item = Ok i -> issue_ok i = true.
Proof.
  unfold Reviewer.Issue_of. destruct item; try discriminate.
  destruct (read_fields _ _ _ _) as [j|]; [|discriminate].
  intros H. apply validated_ok in H as [-> H]. exact H.
Qed.

Lemma kept_Some (item : pyval) (i : Issue) :
  kept item = Some i <->
  Issue_of item = Ok i /\ (CONFIDENCE_THRESHOLD <=? confidence i)%float = true.
Proof.
  unfold Reviewer.kept. destruct (Issue_of item) as [j|e].
  - destruct (CONFIDENCE_THRESHOLD <=? confidence j)%float eqn:T.
    + split; [intros [= <-]; now split | intros [[= <-] _]; reflexivity].
    + split; [discriminate | intros [[= <-] T']; congruence].
  - split; [discriminate | intros [? _]; discriminate].
Qed.

Lemma survivors_ok (items : list pyval) :
  Forall (fun i => issue_ok i = true) (survivors items).
Proof.
  unfold Reviewer.survivors. induction items as [|item items IH]; [constructor|].
  cbn [omap list_omap]. destruct (kept item) as [i|] eqn:K; [|exact IH].
  constructor; [|exact IH].
  apply kept_Some in K as [K _]. now apply Issue_of_ok in K.
Qed.

(** The loop appends the kept elements in order. *)
Lemma collect_issues_eq (items : list pyval) (acc : list Issue) :
  collect_issues items acc = acc ++ survivors items.
Proof.
  unfold Reviewer.survivors. revert acc.
  induction items as [|item items IH]; intros acc.
  - cbn. now rewrite app_nil_r.
  - cbn [Reviewer.collect_issues omap list_omap]. unfold Reviewer.kept.
    destruct (Issue_of item) as [i|e]; [|apply IH].
    destruct (CONFIDENCE_THRESHOLD <=? confidence i)%float; [|apply IH].
    rewrite IH. now rewrite <- app_assoc.
Qed.

(** *** [_parse_llm_output] *)

Lemma parse_body_eq (content : string) :
  parse_body content
  = match json_loads (remaining_text content) with
    | Ok (PList items) => Ok (survivors items)
    | Ok _ => Raise (Exn LLMInvalidOutputError "LLM output is not a JSON array")
    | Raise e => Raise e
    end.
Proof.
  unfold Reviewer.parse_body. rewrite strip_fence_eq. cbn [mbind result_bind].
  destruct (json_loads _) as [v|e]; cbn [mbind result_bind]; [|reflexivity].
  destruct v; try reflexivity. now rewrite collect_issues_eq.
Qed.

Lemma parse_llm_output_cases (content : string) :
  match json_loads (remaining_text content) with
  | Ok (PList items) => _parse_llm_output content = Ok (survivors items)
  | _ => exists msg, _parse_llm_output content = Raise (Exn LLMInvalidOutputError msg)
  end.
Proof.
  unfold Reviewer._parse_llm_output. rewrite parse_body_eq.
  destruct (json_loads _) as [v|e].
  - destruct v; first [reflexivity | eexists; reflexivity].
  - destruct (isinstance e JSONDecodeError); eexists; reflexivity.
Qed.

Lemma parse_llm_output_Ok (content : string) (l : list Issue) :
  _parse_llm_output content = Ok l -> Forall (fun i => issue_ok i = true) l.
Proof.
  pose proof (parse_llm_output_cases content) as H.
  destruct (json_loads _) as [v|e].
  - destruct v;
      try match type of H with ex _ => destruct H as [msg ->]; discriminate end.
    rewrite H. intros [= <-]. apply survivors_ok.
  - destruct H as [msg ->]; discriminate.
Qed.

Lemma parse_llm_output_Raise (content : string) (e : exn) :
  _parse_llm_output content = Raise e -> exn_cls e = LLMInvalidOutputError.
Proof.
  pose proof (parse_llm_output_cases content) as H.
  destruct (json_loads _) as [v|e'].
  - destruct v;
      try match type of H with ex _ => destruct H as [msg ->]; now intros [= <-] end.
    rewrite H. discriminate.
  - destruct H as [msg ->]. now intros [= <-].
Qed.

(** *** The providers and [call_llm] *)

Lemma reply_issues_Ok (r : reply) (l : list Issue) :
  reply_issues r = Ok l -> Forall (fun i => issue_ok i = true) l.
Proof. destruct r; [apply parse_llm_output_Ok | discriminate]. Qed.

Lemma call_openai_Ok (task_prompt model : string) (timeout : Z) (l : list Issue) :
  _call_openai task_prompt model timeout = Ok l ->
  Forall (fun i => issue_ok i = true) l.
Proof.
  unfold Reviewer._call_openai. destruct import_openai; cbn [mbind result_bind].
  - destruct (key_of _ _) as [k|].
    + destruct (reply_issues _) as [l'|e] eqn:R.
      * intros [= <-]. now apply reply_issues_Ok in R.
      * destruct (contains _ _); discriminate.
    + destruct (contains _ _); discriminate.
  - destruct (contains _ _); discriminate.
Qed.

Lemma call_anthropic_Ok (task_prompt model : string) (timeout : Z) (l : list Issue) :
  _call_anthropic task_prompt model timeout = Ok l ->
  Forall (fun i => issue_ok i = true) l.
Proof.
  unfold Reviewer._call_anthropic. destruct import_langchain; cbn [mbind result_bind].
  - destruct (key_of _ _) as [k|]; [|discriminate].
    destruct (reply_issues _) as [l'|e] eqn:R; [|discriminate].
    intros [= <-]. now apply reply_issues_Ok in R.
  - discriminate.
Qed.

Lemma call_local_Ok (task_prompt model : string) (timeout : Z) (l : list Issue) :
  _call_local task_prompt model timeout = Ok l ->
  Forall (fun i => issue_ok i = true) l.
Proof.
  unfold Reviewer._call_local. destruct import_requests; cbn [mbind result_bind].
  - destruct (reply_issues _) as [l'|e] eqn:R.
    + intros [= <-]. now apply reply_issues_Ok in R.
    + destruct (isinstance _ _); discriminate.
  - discriminate.
Qed.

Lemma call_llm_Ok (pr_diff : PRDiff) (provider model : string) (timeout : Z)
    (l : list Issue) :
  call_llm pr_diff provider model timeout = Ok l ->
  Forall (fun i => issue_ok i = true) l.
Proof.
  unfold Reviewer.call_llm. cbv zeta.
  destruct (String.eqb provider "openai").
  { destruct (_call_openai _ _ _) eqn:C.
    - intros [= <-]. now apply call_openai_Ok in C.
    - destruct (_ || _ || _); discriminate. }
  destruct (String.eqb provider "anthropic").
  { destruct (_call_anthropic _ _ _) eqn:C.
    - intros [= <-]. now apply call_anthropic_Ok in C.
    - destruct (_ || _ || _); discriminate. }
  destruct (String.eqb provider "local").
  { destruct (_call_local _ _ _) eqn:C.
    - intros [= <-]. now apply call_local_Ok in C.
    - destruct (_ || _ || _); discriminate. }
  destruct (_ || _ || _); discriminate.
Qed.

(** Whatever [call_llm] raises is a [ReviewerError], possibly one of its
    two subclasses. *)
Lemma call_llm_Raise (pr_diff : PRDiff) (provider model : string) (timeout : Z)
    (e : exn) :
  call_llm pr_diff provider model timeout = Raise e ->
  isinstance e ReviewerError = true.
Proof.
  unfold Reviewer.call_llm. cbv zeta.
  match goal with
  | |- match ?body with _ => _ end = _ -> _ => destruct body as [l|e'] end;
    [discriminate|].
  destruct (isinstance e' LLMTimeoutError || isinstance e' LLMInvalidOutputError
            || isinstance e' ReviewerError) eqn:I.
  - intros [= <-]. destruct e' as [[] m]; cbn in *; congruence.
  - now intros [= <-].
Qed.

(** *** The orchestrator *)

(** Step 2 never raises. *)
Lemma llm_step_eq (pr_diff : PRDiff) (use_llm : bool) (provider model : string) :
  llm_step pr_diff use_llm provider model
  = Ok (llm_outcome pr_diff use_llm provider model).
Proof.
  unfold Reviewer.llm_step, Reviewer.llm_outcome.
  destruct use_llm; [|reflexivity].
  destruct (call_llm _ _ _ _) as [l|e] eqn:C; [reflexivity|].
  apply call_llm_Raise in C.
  destruct e as [[] m]; cbn in *; congruence.
Qed.

Lemma llm_outcome_ok (pr_diff : PRDiff) (use_llm : bool) (provider model : string) :
  Forall (fun i => issue_ok i = true)
         (fst (fst (llm_outcome pr_diff use_llm provider model))).
Proof.
  unfold Reviewer.llm_outcome. destruct use_llm; [|constructor].
  destruct (call_llm _ _ _ _) as [l|e] eqn:C; [|constructor].
  now apply call_llm_Ok in C.
Qed.

Lemma with_severity_cons (k : string) (i : Issue) (l : list Issue) :
  with_severity k (i :: l)
  = ((if String.eqb (severity i) k then 1 else 0) + with_severity k l)%nat.
Proof.
  unfold with_severity, count. cbn [List.filter].
  now destruct (String.eqb (severity i) k).
Qed.

(** The tally adds, to each counter, the number of issues of its
    severity, as long as every severity met has a counter. *)
Lemma count_severities_eq (l : list Issue) (m : gmap string nat) :
  Forall (fun i => is_Some (m !! severity i)) l ->
  exists m',
    count_severities l m = Ok m'
    /\ forall k, m' !! k = (fun n => (n + with_severity k l)%nat) <$> m !! k.
Proof.
  revert m. induction l as [|i l IH]; intros m H.
  - exists m. split; [reflexivity|]. intros k.
    destruct (m !! k); cbn; [f_equal; unfold with_severity, count; cbn; lia | reflexivity].
  - inversion H as [|? ? [n Hn] Hl]; subst.
    cbn [Reviewer.count_severities]. rewrite Hn.
    destruct (IH (<[severity i := (n + 1)%nat]> m)) as (m' & E & Hm').
    { eapply Forall_impl; [exact Hl|]. intros j [x Hx]. cbn beta in *.
      destruct (decide (severity i = severity j)) as [Eq|Ne].
      - rewrite Eq, lookup_insert_eq. eauto.
      - rewrite lookup_insert_ne by assumption. eauto. }
    exists m'. split; [exact E|]. intros k. rewrite Hm', with_severity_cons.
    destruct (String.eqb_spec (severity i) k) as [Eq|Ne].
    + rewrite <- Eq, lookup_insert_eq, Hn. cbn. f_equal. lia.
    + rewrite lookup_insert_ne by assumption.
      destruct (m !! k); cbn; [f_equal; lia | reflexivity].
Qed.

Lemma issue_ok_severity (i : Issue) :
  issue_ok i = true ->
  severity i = "low" \/ severity i = "medium" \/ severity i = "high".
Proof.
  unfold issue_ok, is_literal, severity_literal. cbn [existsb].
  rewrite !andb_true_iff, !orb_true_iff, !String.eqb_eq. intuition discriminate.
Qed.

Lemma Ok_inj {A : Type} (x y : A) : Ok x = Ok y -> x = y.
Proof. congruence. Qed.

Lemma entry_issues_ok (f : Re.pattern * (string * string) -> bool)
    (table : list (Re.pattern * (string * string))) :
  Forall (fun e => is_literal severity_literal (snd (snd e)) = true) table ->
  Forall (fun i => issue_ok i = true) (map entry_issue (List.filter f table)).
Proof.
  induction 1 as [|e table He _ IH]; [constructor|].
  cbn [List.filter]. destruct (f e); [|exact IH].
  cbn [map]. constructor; [|exact IH].
  unfold issue_ok, entry_issue, rule_issue.
  cbn [severity confidence action]. now rewrite He.
Qed.

Lemma rule_issues_ok (diff : string) (l : list Issue) :
  run_all_rules diff = Ok l -> Forall (fun i => issue_ok i = true) l.
Proof.
  rewrite run_all_rules_eq. intros H%Ok_inj. subst l.
  repeat apply Forall_app_2.
  - destruct (_ <? _)%nat; repeat constructor.
  - apply entry_issues_ok, dangerous_patterns_severities.
  - destruct (Re.search _ _ _); repeat constructor.
  - destruct (_ && _); repeat constructor.
Qed.

(** The whole of [review_pr], in closed form. *)
Lemma review_pr_eq (pr_diff : PRDiff) (use_llm : bool) (provider model : string) :
  exists rule_issues,
    run_all_rules (diff pr_diff) = Ok rule_issues /\
    let '(llm_issues, used, name) := llm_outcome pr_diff use_llm provider model in
    let all_issues := rule_issues ++ llm_issues in
    review_pr pr_diff use_llm provider model
    = Ok {| out_pr_number := pr_number pr_diff;
            issues := all_issues;
            summary :=
              {| total_issues := length all_issues;
                 high_severity := with_severity "high" all_issues;
                 medium_severity := with_severity "medium" all_issues;
                 low_severity := with_severity "low" all_issues;
                 review_time_seconds := elapsed;
                 llm_used := used;
                 model_name := name |};
            metadata :=
              <["prompt_version" := Some PROMPT_VERSION]>
                (<["llm_provider" := if used then Some provider else None]> ∅) |}.
Proof.
  destruct (run_all_rules (diff pr_diff)) as [rule_issues|e] eqn:R;
    [|rewrite run_all_rules_eq in R; discriminate].
  exists rule_issues. split; [reflexivity|].
  pose proof (llm_outcome_ok pr_diff use_llm provider model) as Hllm.
  unfold Reviewer.review_pr. rewrite R, llm_step_eq. cbn [mbind result_bind].
  destruct (llm_outcome pr_diff use_llm provider model) as [[llm_issues used] name].
  cbn [fst] in Hllm. cbv zeta.
  set (counts0 := <["low":=0%nat]> (<["medium":=0%nat]> (<["high":=0%nat]> ∅))
                  : gmap string nat).
  destruct (count_severities_eq (rule_issues ++ llm_issues) counts0)
    as (m' & E & Hm').
  { eapply Forall_impl;
      [apply Forall_app_2; [exact (rule_issues_ok _ _ R) | exact Hllm]|].
    intros i Hi. apply issue_ok_severity in Hi as [-> | [-> | ->]]; subst counts0;
      eexists; reflexivity. }
  rewrite E. cbn [mbind result_bind]. unfold getitem.
  rewrite !Hm'. subst counts0.
  change ((<["low":=0%nat]> (<["medium":=0%nat]> (<["high":=0%nat]> ∅))
           : gmap string nat) !! "high") with (Some 0%nat).
  change ((<["low":=0%nat]> (<["medium":=0%nat]> (<["high":=0%nat]> ∅))
           : gmap string nat) !! "medium") with (Some 0%nat).
  change ((<["low":=0%nat]> (<["medium":=0%nat]> (<["high":=0%nat]> ∅))
           : gmap string nat) !! "low") with (Some 0%nat).
  reflexivity.
Qed.

End Surroundings.

End ReviewerFacts.

(* ================================================================== *)
(** ** The rule engine: properties *)
(* ================================================================== *)

Module RulesProperties.
Import PyStr Re Exc Models Rules Spec Samples PyStrFacts RulesFacts.

#[local] Set Warnings "-inexact-float".

(** Every diff is the join of its lines, the pieces [split] cuts it
    into at the line feeds. *)
Lemma join_split_go (cur s : string) :
  is_line cur ->
  join newline (split_go newline 0 cur s) = cur +:+ s
  /\ Forall is_line (split_go newline 0 cur s).
Proof.
  unfold newline. set (nl := ascii_of_N 10).
  revert cur. induction s as [|c s IH]; intros cur Hcur.
  - cbn [split_go join]. rewrite str_app_nil_r. split; [reflexivity | now constructor].
  - cbn [split_go]. rewrite prefix_char.
    destruct (Ascii.eqb nl c) eqn:E.
    + apply Ascii.eqb_eq in E. subst c. cbn [String.length Nat.sub].
      destruct (IH "" eq_refl) as [J F].
      destruct (split_go_nonempty (String nl "") 0 "" s) as (x & r & Hx).
      rewrite Hx in *. split; [|now constructor].
      change (join (String nl "") (cur :: x :: r))
        with (cur +:+ String nl "" +:+ join (String nl "") (x :: r)).
      now rewrite J.
    + assert (Hc : is_line (cur +:+ String c "")).
      { unfold is_line in *. fold nl in Hcur |- *. clear - Hcur E.
        induction cur as [|a cur IHc].
        - rewrite str_app_nil_l. cbn [has_char]. now rewrite E.
        - rewrite str_app_cons. cbn [has_char] in *.
          destruct (Ascii.eqb nl a); [discriminate | now apply IHc]. }
      destruct (IH _ Hc) as [J F]. split; [|exact F].
      now rewrite J, str_app_assoc.
Qed.

Lemma every_diff_is_joined_lines (diff : string) :
  join newline (split diff newline) = diff /\ Forall is_line (split diff newline).
Proof. apply (join_split_go "" diff). reflexivity. Qed.

(** C4.  The size check counts the lines of the diff that begin with
    [+] or [-] but not with [+++] or [---].  At the default threshold,
    a diff with exactly 500 such lines gives no issue, and a diff with
    501 gives one issue of kind [pr_size], severity medium, confidence
    1.0, whose message contains [501]. *)
Theorem pr_size_boundary (diff : string) :
  let lines := split diff newline in
  let n := count is_changed_line lines in
  (join newline lines = diff /\ Forall is_line lines)
  /\ (forall line, is_changed_line line = true <->
        ((exists r, line = "+" +:+ r) \/ (exists r, line = "-" +:+ r))
        /\ ~ ((exists r, line = "+++" +:+ r) \/ (exists r, line = "---" +:+ r)))
  /\ lines_changed diff = n
  /\ (n = 500%nat -> check_pr_size diff 500 = Ok None)
  /\ (n = 501%nat ->
      exists i,
        check_pr_size diff 500 = Ok (Some i)
        /\ type i = "pr_size" /\ severity i = "medium"
        /\ confidence i = 1%float
        /\ contains "501" (message i) = true).
Proof.
  intros lines n. split; [apply every_diff_is_joined_lines|].
  split; [exact is_changed_line_iff|].
  split; [reflexivity|].
  rewrite check_pr_size_eq. change (lines_changed diff) with n. split.
  - now intros ->.
  - intros ->. eexists. split; [reflexivity|]. repeat split.
Qed.

Lemma pr_size_boundary_witness :
  check_pr_size (added 500) 500 = Ok None
  /\ exists i,
       check_pr_size (added 501) 500 = Ok (Some i)
       /\ type i = "pr_size" /\ severity i = "medium"
       /\ confidence i = 1%float
       /\ contains "501" (message i) = true.
Proof.
  split.
  - refine (proj1 (proj2 (proj2 (proj2 (pr_size_boundary (added 500))))) _).
    vm_compute. reflexivity.
  - refine (proj2 (proj2 (proj2 (proj2 (pr_size_boundary (added 501))))) _).
    vm_compute. reflexivity.
Defined.

(** The message carries the count whatever it is. *)
Lemma pr_size_message_count (n : nat) :
  contains (str_of_nat n) (pr_size_message n) = true.
Proof. unfold pr_size_message. apply contains_app. Qed.

(** What every issue of a pattern table looks like. *)
Lemma entry_issues_shape (f : pattern * (string * string) -> bool)
    (table : list (pattern * (string * string))) :
  Forall (fun e => snd (snd e)
                   = if String.eqb (fst (snd e)) pickle_message
                     then "medium" else "high") table ->
  Forall (fun i =>
            type i = "security" /\ confidence i = 1%float
            /\ action i = "review"
            /\ severity i
               = if String.eqb (message i) pickle_message
                 then "medium" else "high")
         (map entry_issue (List.filter f table)).
Proof.
  induction 1 as [|e table He _ IH]; [constructor|].
  cbn [List.filter]. destruct (f e); [|exact IH].
  cbn [map]. constructor; [|exact IH].
  unfold entry_issue, rule_issue. cbn [type confidence action severity message].
  now repeat split.
Qed.

Lemma dangerous_patterns_levels :
  Forall (fun e => snd (snd e)
                   = if String.eqb (fst (snd e)) pickle_message
                     then "medium" else "high") dangerous_patterns.
Proof. repeat constructor. Qed.

(** C5.  For every diff the security check returns a list in which the
    issues carrying the message of a pattern are one when that pattern
    is found in the diff and none when it is not, whatever the other
    patterns do; every issue has kind [security], confidence 1.0 and
    action [review], and severity high, except the issue of the pickle
    pattern, which has severity medium. *)
Theorem security_patterns_fire_once_each (diff : string) :
  exists found,
    check_security_patterns diff = Ok found
    /\ (forall pat msg sev, In (pat, (msg, sev)) dangerous_patterns ->
          count (fun i => String.eqb (message i) msg) found
          = if search true pat diff then 1%nat else 0%nat)
    /\ Forall (fun i =>
                 type i = "security" /\ confidence i = 1%float
                 /\ action i = "review"
                 /\ severity i
                    = if String.eqb (message i) pickle_message
                      then "medium" else "high") found.
Proof.
  eexists. split; [apply check_security_patterns_eq|]. split.
  - intros pat msg sev Hin.
    apply (count_entry diff dangerous_patterns (pat, (msg, sev))
             dangerous_patterns_messages Hin).
  - apply entry_issues_shape, dangerous_patterns_levels.
Qed.

(** A pattern found twice still gives one issue, and two patterns found
    give one issue each. *)
Example eval_twice_exec_once :
  check_security_patterns ("+a = eval(x)" +:+ newline +:+ "+b = eval (y); exec(z)")
  = Ok [rule_issue "security" "high" "Use of eval() detected" 1;
        rule_issue "security" "high" "Use of exec() detected" 1].
Proof. vm_compute. reflexivity. Qed.

(** C6.  The complexity check counts the added lines of the diff, those
    that begin with [+] but not with [+++].  For every diff it returns
    exactly one issue of kind [complexity], severity medium, confidence
    0.8 when there are more than 100 added lines and exactly one of them
    opens a function definition, and no issue when the number of such
    openings is not one or the added lines are at most 100. *)
Theorem complexity_check_spec (diff : string) :
  let lines := split diff newline in
  let added := List.filter is_added_line lines in
  let result := check_code_complexity diff in
  (join newline lines = diff /\ Forall is_line lines)
  /\ (forall line, is_added_line line = true <->
        (exists r, line = "+" +:+ r) /\ ~ (exists r, line = "+++" +:+ r))
  /\ added_lines diff = added
  /\ ((100 < length added)%nat -> function_count added = 1%nat ->
      exists i,
        result = Ok [i]
        /\ type i = "complexity" /\ severity i = "medium"
        /\ confidence i = 0.8%float)
  /\ (function_count added <> 1%nat -> result = Ok [])
  /\ ((length added <= 100)%nat -> result = Ok []).
Proof.
  intros lines added result. split; [apply every_diff_is_joined_lines|].
  split; [exact is_added_line_iff|].
  split; [reflexivity|]. subst result.
  rewrite check_code_complexity_eq. change (added_lines diff) with added.
  repeat split.
  - intros Hn Hf. apply Nat.ltb_lt in Hn. rewrite Hn, Hf. cbn [Nat.eqb andb].
    eexists. split; [reflexivity|]. now repeat split.
  - intros Hf. apply Nat.eqb_neq in Hf. rewrite Hf. now rewrite andb_false_r.
  - intros Hn. apply Nat.ltb_ge in Hn. now rewrite Hn.
Qed.

Lemma complexity_check_spec_witness :
  (exists i,
     check_code_complexity (join newline long_function) = Ok [i]
     /\ type i = "complexity" /\ severity i = "medium"
     /\ confidence i = 0.8%float)
  /\ check_code_complexity (join newline two_functions) = Ok []
  /\ check_code_complexity (added 100) = Ok [].
Proof.
  split; [|split].
  - refine (proj1 (proj2 (proj2 (proj2
              (complexity_check_spec (join newline long_function))))) _ _).
    + vm_compute. lia.
    + vm_compute. reflexivity.
  - refine (proj1 (proj2 (proj2 (proj2 (proj2
              (complexity_check_spec (join newline two_functions)))))) _).
    vm_compute. discriminate.
  - refine (proj2 (proj2 (proj2 (proj2 (proj2
              (complexity_check_spec (added 100)))))) _).
    vm_compute. lia.
Defined.

(** C7.  [run_all_rules] returns a list for every string, never an
    exception, and the empty list for the empty string. *)
Theorem run_all_rules_total :
  (forall diff : string, exists found, run_all_rules diff = Ok found)
  /\ run_all_rules "" = Ok [].
Proof.
  split.
  - intros diff. eexists. apply run_all_rules_eq.
  - vm_compute. reflexivity.
Qed.

(** A string without any line terminator is one line of the diff. *)
Example run_all_rules_one_line :
  run_all_rules "+result = eval(user_input)"
  = Ok [rule_issue "security" "high" "Use of eval() detected" 1].
Proof. vm_compute. reflexivity. Qed.

(** C10.  For every diff, every issue [run_all_rules] returns has
    neither a line number nor a file path. *)
Theorem rule_issues_have_no_location (diff : string) :
  exists found,
    run_all_rules diff = Ok found
    /\ Forall (fun i => line_number i = None /\ file_path i = None) found.
Proof.
  eexists. split; [apply run_all_rules_eq|].
  repeat apply Forall_app_2.
  - destruct (_ <? _)%nat; repeat constructor.
  - induction (List.filter (entry_found diff) dangerous_patterns) as [|e l IH];
      cbn [map]; constructor; [now split | exact IH].
  - destruct (search _ _ _); repeat constructor.
  - destruct (_ && _); repeat constructor.
Qed.

(** The tests of [tests/test_rules.py]. *)
Example test_pr_size_small :
  check_pr_size ("+line1" +:+ newline +:+ "+line2" +:+ newline +:+ "+line3") 500
  = Ok None.
Proof. vm_compute. reflexivity. Qed.

Example test_security_hardcoded_password :
  check_security_patterns ("+password = " +:+ String dquote "supersecret123"
                             +:+ String dquote "")
  = Ok [rule_issue "security" "high" "Possible hardcoded password" 1].
Proof. vm_compute. reflexivity. Qed.

Example test_import_star :
  check_import_quality "+from module import *"
  = Ok [rule_issue "style" "low" star_import_message 0.9].
Proof. vm_compute. reflexivity. Qed.

End RulesProperties.

(* ================================================================== *)
(** ** The gateway and the orchestrator: properties *)
(* ================================================================== *)

Module ReviewerProperties.
Import PyStr Exc Models Rules Prompts Spec Reviewer Samples.
Import PyStrFacts RulesFacts FloatFacts ReviewerFacts.

#[local] Set Warnings "-inexact-float".

Section Surroundings.

Variable json_loads : string -> result pyval.
Variable lax_float : pyval -> option float.
Variable lax_int : pyval -> option Z.
Variable lax_str : pyval -> option string.
Variable getenv : string -> option string.
Variable import_openai import_langchain import_requests : result unit.
Variable openai_chat anthropic_invoke local_post : string -> string -> string -> Z -> reply.
Variable elapsed : float.

#[local] Abbreviation Issue_of := (Issue_of lax_float lax_int lax_str).
#[local] Abbreviation kept := (kept lax_float lax_int lax_str).
#[local] Abbreviation survivors := (survivors lax_float lax_int lax_str).
#[local] Abbreviation _parse_llm_output :=
  (_parse_llm_output json_loads lax_float lax_int lax_str).
#[local] Abbreviation call_llm :=
  (call_llm json_loads lax_float lax_int lax_str getenv import_openai
     import_langchain import_requests openai_chat anthropic_invoke local_post).
#[local] Abbreviation llm_outcome :=
  (llm_outcome json_loads lax_float lax_int lax_str getenv import_openai
     import_langchain import_requests openai_chat anthropic_invoke local_post).
#[local] Abbreviation review_pr :=
  (review_pr json_loads lax_float lax_int lax_str getenv import_openai
     import_langchain import_requests openai_chat anthropic_invoke local_post elapsed).

(** An element is kept exactly when it builds an [Issue] and the
    confidence of that issue is not strictly below the threshold. *)
Lemma kept_iff_not_below (item : pyval) (i : Issue) :
  kept item = Some i <->
  Issue_of item = Ok i /\ (confidence i <? CONFIDENCE_THRESHOLD)%float = false.
Proof.
  rewrite kept_Some. split; intros [H T]; (split; [exact H|]).
  - pose proof (Issue_of_ok _ _ _ _ _ H) as V.
    unfold issue_ok, confidence_ok in V. rewrite !andb_true_iff in V.
    destruct V as [[_ [V _]] _]. apply leb_refl_of_leb in V.
    rewrite (leb_negb_ltb CONFIDENCE_THRESHOLD _ V eq_refl) in T.
    now destruct (confidence i <? CONFIDENCE_THRESHOLD)%float.
  - pose proof (Issue_of_ok _ _ _ _ _ H) as V.
    unfold issue_ok, confidence_ok in V. rewrite !andb_true_iff in V.
    destruct V as [[_ [V _]] _]. apply leb_refl_of_leb in V.
    rewrite (leb_negb_ltb CONFIDENCE_THRESHOLD _ V eq_refl). now rewrite T.
Qed.

(** C3, as the code has it.  Parsing a raw reply removes the whitespace
    around it; when the text then starts with a fence, what is parsed is
    what stands between that fence and the next one (or the end of the
    text), without a leading [json], the one tag that is removed.
    Parsing fails, and then with [LLMInvalidOutputError], exactly when
    the decoder fails on this remaining text or decodes something other
    than an array.  Otherwise the result is the list of the elements
    that are kept, in the order of the array: an element is kept when it
    builds a valid [Issue] whose confidence is not strictly below the
    threshold, and is dropped otherwise without ending the parse; no
    element kept gives the empty list. *)
Theorem parse_llm_output_spec (content : string) :
  (exists ws1 ws2,
      Spec.all_space ws1 = true /\ Spec.all_space ws2 = true
      /\ content = ws1 +:+ strip content +:+ ws2 /\ trimmed (strip content))
  /\ remaining_text content
     = (if startswith (strip content) fence
        then without_json_tag (before fence (drop 3 (strip content)))
        else strip content)
  /\ match json_loads (remaining_text content) with
     | Ok (PList items) => _parse_llm_output content = Ok (survivors items)
     | _ => exists msg,
              _parse_llm_output content = Raise (Exn LLMInvalidOutputError msg)
     end
  /\ survivors [] = []
  /\ (forall item items,
        survivors (item :: items)
        = match kept item with
          | Some i => i :: survivors items
          | None => survivors items
          end)
  /\ (forall item i,
        kept item = Some i <->
        Issue_of item = Ok i
        /\ (confidence i <? CONFIDENCE_THRESHOLD)%float = false).
Proof.
  split.
  { destruct (strip_decompose content) as (ws1 & ws2 & H1 & H2 & E).
    exists ws1, ws2. repeat split; try assumption; apply strip_trimmed. }
  split; [reflexivity|].
  split; [apply parse_llm_output_cases|].
  split; [reflexivity|].
  split; [|exact kept_iff_not_below].
  intros item items. unfold Reviewer.survivors. cbn [omap list_omap].
  now destruct (kept item).
Qed.

(** C2.  Whatever [call_llm] raises is a [ReviewerError], an
    [LLMTimeoutError] or an [LLMInvalidOutputError], and [review_pr]
    then still returns a report: [llm_used] is false and the issues are
    exactly those of the rule engine. *)
Theorem llm_failure_degrades_to_rules (pr_diff : PRDiff)
    (llm_provider llm_model : string) (e : exn) :
  call_llm pr_diff llm_provider llm_model 30 = Raise e ->
  (exn_cls e = LLMTimeoutError \/ exn_cls e = LLMInvalidOutputError
   \/ exn_cls e = ReviewerError)
  /\ exists out,
       review_pr pr_diff true llm_provider llm_model = Ok out
       /\ run_all_rules (diff pr_diff) = Ok (issues out)
       /\ llm_used (summary out) = false.
Proof.
  intros C. split.
  - apply call_llm_Raise in C. destruct e as [[] m]; cbn in *; auto; discriminate.
  - destruct (review_pr_eq json_loads lax_float lax_int lax_str getenv
                import_openai import_langchain import_requests openai_chat
                anthropic_invoke local_post elapsed pr_diff true llm_provider llm_model)
      as (rule_issues & R & E).
    unfold Reviewer.llm_outcome in E. rewrite C in E.
    eexists. split; [exact E|]. cbn [issues summary llm_used].
    rewrite app_nil_r. now split.
Qed.

(** C8.  [review_pr] always returns a report, and every issue in it has
    a confidence between 0 and 1, a severity among low, medium and high,
    and an action among review and ignore; an [Issue] that breaks one of
    these is never built. *)
Theorem report_issues_are_valid (pr_diff : PRDiff) (use_llm : bool)
    (llm_provider llm_model : string) :
  (exists out,
     review_pr pr_diff use_llm llm_provider llm_model = Ok out
     /\ Forall (fun i =>
                  (0 <=? confidence i)%float = true
                  /\ (confidence i <=? 1)%float = true
                  /\ In (severity i) ["low"; "medium"; "high"]
                  /\ In (action i) ["review"; "ignore"]) (issues out))
  /\ (forall i : Issue,
        ((0 <=? confidence i)%float && (confidence i <=? 1)%float = false
         \/ ~ In (severity i) ["low"; "medium"; "high"]
         \/ ~ In (action i) ["review"; "ignore"]) ->
        (exists e, validated i = Raise e)
        /\ forall item, Issue_of item <> Ok i).
Proof.
  assert (V : forall i, issue_ok i = true <->
                (0 <=? confidence i)%float = true
                /\ (confidence i <=? 1)%float = true
                /\ In (severity i) ["low"; "medium"; "high"]
                /\ In (action i) ["review"; "ignore"]).
  { intros i. unfold issue_ok, confidence_ok, is_literal, severity_literal,
      action_literal. cbn [existsb In].
    rewrite !andb_true_iff, !orb_true_iff, !String.eqb_eq.
    intuition (try discriminate; auto). }
  split.
  - destruct (review_pr_eq json_loads lax_float lax_int lax_str getenv
                import_openai import_langchain import_requests openai_chat
                anthropic_invoke local_post elapsed pr_diff use_llm
                llm_provider llm_model) as (rule_issues & R & E).
    pose proof (llm_outcome_ok json_loads lax_float lax_int lax_str getenv
                  import_openai import_langchain import_requests openai_chat
                  anthropic_invoke local_post pr_diff use_llm llm_provider
                  llm_model) as L.
    destruct (llm_outcome _ _ _ _) as [[llm_issues used] name]. cbn [fst] in L.
    eexists. split; [exact E|]. cbn [issues].
    eapply Forall_impl;
      [apply Forall_app_2; [exact (rule_issues_ok _ _ R) | exact L]|].
    intros i Hi. now apply V.
  - intros i Hbad.
    assert (N : issue_ok i = false).
    { destruct (issue_ok i) eqn:Ok; [|reflexivity]. exfalso.
      apply V in Ok as (A & B & C & D). rewrite A, B in Hbad.
      destruct Hbad as [?|[?|?]]; [discriminate | tauto | tauto]. }
    split.
    + unfold validated. rewrite N. eauto.
    + intros item H. apply Issue_of_ok in H. congruence.
Qed.

(** C9.  The report lists the issues of the rule engine first and those
    of the LLM after them, each list in its own order; [total_issues] is
    the length of that list and the three severity counts are taken
    over it; the metadata holds the prompt version and, under
    [llm_provider], the provider name when the LLM was used and [None]
    when it was not. *)
Theorem report_structure (pr_diff : PRDiff) (use_llm : bool)
    (llm_provider llm_model : string) :
  exists out rule_issues,
    review_pr pr_diff use_llm llm_provider llm_model = Ok out
    /\ run_all_rules (diff pr_diff) = Ok rule_issues
    /\ issues out
       = rule_issues ++ fst (fst (llm_outcome pr_diff use_llm llm_provider llm_model))
    /\ llm_used (summary out)
       = snd (fst (llm_outcome pr_diff use_llm llm_provider llm_model))
    /\ out_pr_number out = pr_number pr_diff
    /\ total_issues (summary out) = length (issues out)
    /\ high_severity (summary out) = with_severity "high" (issues out)
    /\ medium_severity (summary out) = with_severity "medium" (issues out)
    /\ low_severity (summary out) = with_severity "low" (issues out)
    /\ metadata out !! "prompt_version" = Some (Some PROMPT_VERSION)
    /\ metadata out !! "llm_provider"
       = Some (if llm_used (summary out) then Some llm_provider else None).
Proof.
  destruct (review_pr_eq json_loads lax_float lax_int lax_str getenv
              import_openai import_langchain import_requests openai_chat
              anthropic_invoke local_post elapsed pr_diff use_llm
              llm_provider llm_model) as (rule_issues & R & E).
  destruct (llm_outcome _ _ _ _) as [[llm_issues used] name].
  eexists. exists rule_issues. split; [exact E|].
  cbn [issues summary llm_used out_pr_number total_issues high_severity
       medium_severity low_severity metadata fst snd].
  repeat split; assumption.
Qed.

(** C1, on the code.  The sample diff of the [/demo] endpoint has a
    hardcoded [SECRET_KEY], a call of [eval], a use of [hashlib.md5] and
    a wildcard import.  With the LLM disabled, [review_pr] reports one
    issue of high severity (the call of [eval]) and one of low severity,
    with [llm_used] false, while the rule set of [api.py] finds three
    issues of high severity in the same diff. *)
Theorem demo_diff_review_counts (llm_provider llm_model : string) :
  (exists out,
     review_pr demo_request false llm_provider llm_model = Ok out
     /\ map message (issues out)
        = ["Use of eval() detected"; star_import_message]
     /\ high_severity (summary out) = 1%nat
     /\ low_severity (summary out) = 1%nat
     /\ llm_used (summary out) = false)
  /\ (exists found counts,
        Api.run_review Api.sample_diff = Ok (found, counts)
        /\ map Api.d_message found
           = ["Use of eval() detected - security risk";
              "Hardcoded secret key detected";
              "MD5 is broken - use SHA256 or bcrypt";
              "Star import (import *) detected. Use explicit imports."]
        /\ counts !! "high" = Some 3%nat
        /\ counts !! "low" = Some 1%nat).
Proof.
  split.
  - destruct (review_pr_eq json_loads lax_float lax_int lax_str getenv
                import_openai import_langchain import_requests openai_chat
                anthropic_invoke local_post elapsed demo_request false
                llm_provider llm_model) as (rule_issues & R & E).
    cbn [Reviewer.llm_outcome] in E.
    assert (R' : run_all_rules (diff demo_request)
                 = Ok [rule_issue "security" "high" "Use of eval() detected" 1;
                       rule_issue "style" "low" star_import_message 0.9])
      by (vm_compute; reflexivity).
    rewrite R' in R. apply Ok_inj in R. subst rule_issues.
    eexists. split; [exact E|]. now repeat split.
  - eexists _, _. split; [vm_compute; reflexivity|]. now repeat split.
Qed.

End Surroundings.

(** C3 as worded fails on a fence with another tag.  For an empty array
    in a fence tagged [python], the text handed to the decoder still
    starts with the tag, where removing any language tag would leave the
    array on its own line. *)
Lemma python_fence_tag_is_kept :
  strip_fence (strip python_fenced)
  = Ok ("python" +:+ newline +:+ "[]" +:+ newline)
  /\ remaining_text python_fenced = "python" +:+ newline +:+ "[]" +:+ newline
  /\ remaining_text_any_tag python_fenced = newline +:+ "[]" +:+ newline
  /\ _parse_llm_output decode_empty_array refuse refuse refuse python_fenced
     = Raise (Exn LLMInvalidOutputError "LLM output is not valid JSON")
  /\ _parse_llm_output decode_empty_array refuse refuse refuse json_fenced = Ok [].
Proof. repeat split; vm_compute; reflexivity. Qed.

(** With no API key set, the OpenAI path raises a [ReviewerError] and
    the review of the demo request falls back on the rules. *)
Lemma llm_failure_degrades_to_rules_witness :
  (ReviewerError = LLMTimeoutError \/ ReviewerError = LLMInvalidOutputError
   \/ ReviewerError = ReviewerError)
  /\ exists out,
       review_pr decode_empty_array refuse refuse refuse no_env imported imported
         imported unreachable unreachable unreachable 0%float
         demo_request true "openai" "gpt-4" = Ok out
       /\ run_all_rules (diff demo_request) = Ok (issues out)
       /\ llm_used (summary out) = false.
Proof.
  apply (llm_failure_degrades_to_rules decode_empty_array refuse refuse refuse
           no_env imported imported imported unreachable unreachable unreachable
           0%float demo_request "openai" "gpt-4"
           (Exn ReviewerError "OpenAI API error: OPENAI_API_KEY not set")).
  vm_compute. reflexivity.
Defined.

(** A timeout of the local server and an unknown provider end the same way. *)
Example local_timeout_is_absorbed :
  call_llm decode_empty_array refuse refuse refuse no_env imported imported imported
    unreachable unreachable
    (fun _ _ _ _ => Failed (Exn RequestsTimeout "Read timed out."))
    demo_request "local" "llama3" 30
  = Raise (Exn LLMTimeoutError "Local LLM timeout").
Proof. vm_compute. reflexivity. Qed.

Example unknown_provider_is_an_error :
  call_llm decode_empty_array refuse refuse refuse no_env imported imported imported
    unreachable unreachable unreachable demo_request "gemini" "pro" 30
  = Raise (Exn ReviewerError "Unsupported LLM provider: gemini").
Proof. vm_compute. reflexivity. Qed.

(** The tests of [tests/test_reviewer.py], on the decoded values. *)
Example test_parse_empty_array :
  _parse_llm_output decode_empty_array refuse refuse refuse "[]" = Ok [].
Proof. vm_compute. reflexivity. Qed.

Example test_parse_invalid_json :
  _parse_llm_output decode_empty_array refuse refuse refuse "not json"
  = Raise (Exn LLMInvalidOutputError "LLM output is not valid JSON").
Proof. vm_compute. reflexivity. Qed.

Example test_parse_non_array_json :
  _parse_llm_output (decode_table [("{}", PDict ∅)]) refuse refuse refuse "{}"
  = Raise (Exn LLMInvalidOutputError
             "Failed to parse LLM output: LLM output is not a JSON array").
Proof. vm_compute. reflexivity. Qed.

Example test_confidence_threshold_filtering :
  survivors refuse refuse refuse
    [issue_object "security" "high" "High confidence" 0.9;
     issue_object "style" "low" "Low confidence" 0.5]
  = [rule_issue "security" "high" "High confidence" 0.9].
Proof. vm_compute. reflexivity. Qed.

Example test_parse_invalid_issue_schema :
  survivors refuse refuse refuse
    [issue_object "security" "high" "Valid issue" 0.9; incomplete_object;
     critical_object; PStr "text";
     issue_object "style" "low" "At the threshold" 0.7]
  = [rule_issue "security" "high" "Valid issue" 0.9;
     rule_issue "style" "low" "At the threshold" 0.7].
Proof. vm_compute. reflexivity. Qed.

End ReviewerProperties.

(* ================================================================== *)
(** ** Facts about the pattern matcher *)
(* ================================================================== *)

Module ReFacts.
Import PyStr Re Spec ReSpec PyStrFacts.

(** *** Lower-casing and the character classes *)










(** *** Matches and the text around them *)

Lemma many_base (f : ascii -> bool) (k : option ascii -> string -> bool)
    (prev : option ascii) (s : string) :
  k prev s = true -> many f k prev s = true.
Proof.
  intros H. destruct s as [|c s]; cbn [many]; [exact H|].
  rewrite H. now destruct (f c), (many f k (Some c) s).
Qed.

(** A run of characters of the class, then the continuation. *)
Lemma many_run (f : ascii -> bool) (k : option ascii -> string -> bool)
    (prev : option ascii) (run rest : string) :
  all_chars f run = true ->
  k (prev_after prev run) rest = true ->
  many f k prev (run +:+ rest) = true.
Proof.
  revert prev. induction run as [|c run IH]; intros prev Hrun Hk.
  - rewrite str_app_nil_l. now apply many_base.
  - rewrite str_app_cons. cbn [many all_chars prev_after] in *.
    destruct (f c); [|discriminate]. now rewrite IH.
Qed.

Lemma many_extend (f : ascii -> bool) (k k' : option ascii -> string -> bool)
    (b : string) (prev prev' : option ascii) (s : string) :
  (forall prev prev' s, k prev s = true -> k' prev' (s +:+ b) = true) ->
  many f k prev s = true -> many f k' prev' (s +:+ b) = true.
Proof.
  intros Hk. revert prev prev'. induction s as [|c s IH]; intros prev prev' H.
  - cbn [many] in H. apply many_base. now apply (Hk prev).
  - rewrite str_app_cons. cbn [many] in *.
    destruct (f c).
    + destruct (many f k (Some c) s) eqn:M.
      * now rewrite (IH (Some c) (Some c) M).
      * rewrite <- str_app_cons, (Hk prev prev' _ H).
        now destruct (many f k' (Some c) (s +:+ b)).
    + rewrite <- str_app_cons. now apply (Hk prev).
Qed.

(** A match of a pattern without [\b] and [^] stays a match whatever
    is put before the position and after the text. *)
Lemma match_at_extend (ic : bool) (p : pattern) (b : string)
    (prev prev' : option ascii) (s : string) :
  context_free p = true ->
  match_at ic p prev s = true -> match_at ic p prev' (s +:+ b) = true.
Proof.
  revert prev prev' s. induction p as [|n p IH]; intros prev prev' s Hp H;
    [reflexivity|].
  unfold context_free in Hp. cbn [forallb] in Hp.
  destruct n as [q k| |]; try discriminate. cbn [andb] in Hp.
  fold (context_free p) in Hp.
  destruct q; cbn [match_at] in *.
  - destruct s as [|c s]; [discriminate|]. rewrite str_app_cons.
    destruct (class_matches ic k c); [|discriminate].
    now apply (IH (Some c)).
  - destruct s as [|c s].
    + rewrite str_app_nil_l.
      pose proof (IH prev prev' "" Hp H) as E. rewrite str_app_nil_l in E.
      destruct b as [|c b]; [exact E|]. rewrite E.
      now destruct (class_matches ic k c), (match_at ic p (Some c) b).
    + rewrite str_app_cons. destruct (class_matches ic k c).
      * destruct (match_at ic p (Some c) s) eqn:M.
        -- now rewrite (IH (Some c) (Some c) s Hp M).
        -- rewrite <- str_app_cons, (IH prev prev' _ Hp H).
           now destruct (match_at ic p (Some c) (s +:+ b)).
      * rewrite <- str_app_cons. now apply (IH prev).
  - apply (many_extend _ (match_at ic p) _ b prev prev' s); [|exact H].
    intros. now apply (IH prev0).
  - destruct s as [|c s]; [discriminate|]. rewrite str_app_cons.
    destruct (class_matches ic k c); [|discriminate].
    apply (many_extend _ (match_at ic p) _ b (Some c) (Some c) s); [|exact H].
    intros. now apply (IH prev0).
Qed.

(** Searching reaches every position of the text. *)
Lemma search_from_reach (ic : bool) (p : pattern) (prev : option ascii)
    (a s : string) :
  match_at ic p (prev_after prev a) s = true ->
  search_from ic p prev (a +:+ s) = true.
Proof.
  revert prev. induction a as [|c a IH]; intros prev H.
  - rewrite str_app_nil_l. cbn [prev_after] in H.
    destruct s; cbn [search_from]; now rewrite H.
  - rewrite str_app_cons. cbn [search_from prev_after] in *.
    rewrite (IH _ H). now destruct (match_at ic p prev _).
Qed.

(** A successful search found a match at some position. *)
Lemma search_from_found (ic : bool) (p : pattern) (prev : option ascii)
    (d : string) :
  search_from ic p prev d = true ->
  exists d1 d2,
    d = d1 +:+ d2 /\ match_at ic p (prev_after prev d1) d2 = true.
Proof.
  revert prev. induction d as [|c d IH]; intros prev H; cbn [search_from] in H.
  - exists "", "". split; [reflexivity|]. cbn [prev_after].
    now destruct (match_at ic p prev "").
  - destruct (match_at ic p prev (String c d)) eqn:M.
    + exists "", (String c d). now split.
    + destruct (IH _ H) as (d1 & d2 & -> & Hm).
      exists (String c d1), d2. now split.
Qed.

Lemma prev_after_app (prev : option ascii) (a b : string) :
  prev_after prev (a +:+ b) = prev_after (prev_after prev a) b.
Proof.
  revert prev. induction a as [|c a IH]; intros prev; [reflexivity|].
  rewrite str_app_cons. cbn [prev_after]. apply IH.
Qed.

(** What a pattern without [\b] and [^] finds in a text, it finds in
    every text that contains it. *)
Lemma search_surrounded (ic : bool) (p : pattern) (a d b : string) :
  context_free p = true ->
  search ic p d = true -> search ic p (a +:+ d +:+ b) = true.
Proof.
  intros Hp H. apply search_from_found in H as (d1 & d2 & -> & Hm).
  unfold search.
  rewrite str_app_assoc, <- (str_app_assoc a d1 (d2 +:+ b)).
  apply search_from_reach.
  now apply (match_at_extend ic p b (prev_after None d1)).
Qed.

End ReFacts.

(* ================================================================== *)
(** ** The rule engine: further properties *)
(* ================================================================== *)

Module RulesExtras.
Import PyStr Re Exc Models Rules Spec ReSpec RulesSpec.
Import PyStrFacts RulesFacts ReFacts.

#[local] Set Warnings "-inexact-float".

(** *** Helpers *)

Lemma messages_entry_issues (diff msg : string)
    (table : list (pattern * (string * string))) :
  In msg (messages (map entry_issue (List.filter (entry_found diff) table)))
  <-> exists e, In e table /\ fst (snd e) = msg /\ entry_found diff e = true.
Proof.
  unfold messages. rewrite map_map. rewrite in_map_iff. split.
  - intros (e & <- & He). apply List.filter_In in He as [He Hf]. now exists e.
  - intros (e & He & <- & Hf). exists e. split; [reflexivity|].
    now apply List.filter_In.
Qed.

Lemma filter_length_le {A : Type} (f : A -> bool) (l : list A) :
  (length (List.filter f l) <= length l)%nat.
Proof.
  induction l as [|x l IH]; cbn [List.filter length]; [lia|].
  destruct (f x); cbn [length]; lia.
Qed.

(** Reading a word letter by letter, in any letter case. *)
Lemma match_at_word (p : pattern) (w w' rest : string) (prev : option ascii) :
  lower w' = lower w ->
  match_at true (lits w ++ p) prev (w' +:+ rest)
  = match_at true p (prev_after prev w') rest.
Proof.
  revert w' prev. induction w as [|c w IH]; intros w' prev H.
  - destruct w'; [reflexivity | discriminate].
  - destruct w' as [|c' w']; [discriminate|].
    cbn [lower] in H. injection H as Hc Hw.
    rewrite str_app_cons. cbn [lits app match_at class_matches prev_after].
    unfold same_char. rewrite Hc, Ascii.eqb_refl. now apply IH.
Qed.

(** The same, for a pattern matched without [re.IGNORECASE]. *)
Lemma match_at_exact_word (p : pattern) (w rest : string) (prev : option ascii) :
  match_at false (lits w ++ p) prev (w +:+ rest)
  = match_at false p (prev_after prev w) rest.
Proof.
  revert prev. induction w as [|c w IH]; intros prev; [reflexivity|].
  rewrite str_app_cons. cbn [lits app match_at class_matches prev_after].
  unfold same_char. rewrite Ascii.eqb_refl. apply IH.
Qed.

(** A non-empty run of a class, then the continuation. *)
Lemma match_at_run1 (ic : bool) (k : cclass) (p : pattern) (run rest : string)
    (prev : option ascii) :
  run <> "" ->
  all_chars (class_matches ic k) run = true ->
  match_at ic p (prev_after prev run) rest = true ->
  match_at ic (Chars Many1 k :: p) prev (run +:+ rest) = true.
Proof.
  destruct run as [|c run]; [congruence|]. intros _ Hrun Hk.
  rewrite str_app_cons. cbn [match_at all_chars prev_after] in *.
  destruct (class_matches ic k c); [|discriminate].
  now apply many_run.
Qed.

Lemma match_at_run0 (ic : bool) (k : cclass) (p : pattern) (run rest : string)
    (prev : option ascii) :
  all_chars (class_matches ic k) run = true ->
  match_at ic p (prev_after prev run) rest = true ->
  match_at ic (Chars Many0 k :: p) prev (run +:+ rest) = true.
Proof. intros Hrun Hk. cbn [match_at]. now apply many_run. Qed.

Lemma match_at_once (ic : bool) (k : cclass) (p : pattern) (c : ascii)
    (rest : string) (prev : option ascii) :
  class_matches ic k c = true ->
  match_at ic (Chars Once k :: p) prev (String c rest)
  = match_at ic p (Some c) rest.
Proof. intros H. cbn [match_at]. now rewrite H. Qed.

Lemma all_chars_ext (f g : ascii -> bool) (s : string) :
  (forall c, f c = g c) -> all_chars f s = all_chars g s.
Proof.
  intros H. induction s as [|c s IH]; cbn [all_chars]; [reflexivity|].
  now rewrite H, IH.
Qed.

Lemma quote_class (ic : bool) (c : ascii) :
  class_matches ic (AnyOf [dquote; squote]) c = is_quote c.
Proof. destruct ic, c as [[] [] [] [] [] [] [] []]; reflexivity. Qed.



(** Joining two non-empty lists of lines puts a line feed between them. *)
Lemma join_app (l1 l2 : list string) :
  l1 <> [] -> l2 <> [] ->
  join newline (l1 ++ l2) = join newline l1 +:+ newline +:+ join newline l2.
Proof.
  intros H1 H2. induction l1 as [|x l1 IH]; [congruence|].
  destruct l1 as [|y l1].
  - destruct l2 as [|z l2]; [congruence|]. reflexivity.
  - change (join newline ((x :: y :: l1) ++ l2))
      with (x +:+ newline +:+ join newline ((y :: l1) ++ l2)).
    rewrite IH by discriminate.
    change (join newline (x :: y :: l1))
      with (x +:+ newline +:+ join newline (y :: l1)).
    now rewrite !str_app_assoc.
Qed.

(** The lines of two texts joined by a line feed are the lines of the
    one followed by the lines of the other. *)
Lemma split_lines_app (d1 d2 : string) :
  split (d1 +:+ newline +:+ d2) newline = split d1 newline ++ split d2 newline.
Proof.
  destruct (RulesProperties.every_diff_is_joined_lines d1) as [J1 F1].
  destruct (RulesProperties.every_diff_is_joined_lines d2) as [J2 F2].
  destruct (split_go_nonempty newline 0 "" d1) as (x1 & r1 & E1).
  destruct (split_go_nonempty newline 0 "" d2) as (x2 & r2 & E2).
  unfold split in *. rewrite E1, E2 in *.
  rewrite <- J1 at 1. rewrite <- J2 at 1.
  rewrite <- join_app by discriminate.
  change ((x1 :: r1) ++ x2 :: r2) with (x1 :: (r1 ++ x2 :: r2)).
  apply (split_join_lines x1 (r1 ++ x2 :: r2)).
  change (x1 :: r1 ++ x2 :: r2) with ((x1 :: r1) ++ x2 :: r2).
  now apply Forall_app_2.
Qed.

Lemma space_class (ic : bool) (s : string) :
  all_chars (class_matches ic Space) s = all_chars isspace s.
Proof. apply all_chars_ext. reflexivity. Qed.

Lemma not_space_class (ic : bool) (s : string) :
  all_chars (class_matches ic NotSpace) s = all_chars not_space s.
Proof. apply all_chars_ext. reflexivity. Qed.




(** *** The properties *)


(** X2.  A hardcoded password, API key or secret, or a star import, found in
    a diff is found in every diff that contains that diff: text added
    before or after cannot hide it. *)
Theorem quoted_secrets_survive_context (a d b : string) :
  exists found found',
    check_security_patterns d = Ok found
    /\ check_security_patterns (a +:+ d +:+ b) = Ok found'
    /\ (forall msg,
          In msg ["Possible hardcoded password"; "Possible hardcoded API key";
                  "Possible hardcoded secret"] ->
          In msg (messages found) -> In msg (messages found'))
    /\ (check_import_quality d
        = Ok [rule_issue "style" "low" star_import_message 0.9] ->
        check_import_quality (a +:+ d +:+ b)
        = Ok [rule_issue "style" "low" star_import_message 0.9]).
Proof.
  eexists _, _. split; [apply check_security_patterns_eq|].
  split; [apply check_security_patterns_eq|]. split.
  - intros msg Hmsg. rewrite !messages_entry_issues.
    intros (e & He & Em & Hf). exists e. repeat split; try assumption.
    unfold entry_found in *. apply search_surrounded; [|exact Hf].
    subst msg. cbn [dangerous_patterns In] in He.
    destruct He as [<-|[<-|[<-|[<-|[<-|[<-|[]]]]]]]; cbn [fst snd In] in *;
      first [reflexivity | intuition discriminate].
  - rewrite !check_import_quality_eq.
    destruct (search false star_import_pattern d) eqn:S; [|discriminate].
    intros _. now rewrite (search_surrounded false star_import_pattern a d b eq_refl S).
Qed.

(** X3.  Counting composes: the changed lines of two diffs joined by a line
    feed are those of the one plus those of the other, and likewise the
    added lines; so a diff that draws the size warning still draws it
    with more lines appended. *)
Theorem line_counts_add (d1 d2 : string) (threshold : nat) :
  lines_changed (d1 +:+ newline +:+ d2)
  = (lines_changed d1 + lines_changed d2)%nat
  /\ added_lines (d1 +:+ newline +:+ d2) = added_lines d1 ++ added_lines d2
  /\ (check_pr_size d1 threshold <> Ok None ->
      check_pr_size (d1 +:+ newline +:+ d2) threshold <> Ok None).
Proof.
  assert (L : lines_changed (d1 +:+ newline +:+ d2)
              = (lines_changed d1 + lines_changed d2)%nat).
  { unfold lines_changed. now rewrite split_lines_app, List.filter_app, length_app. }
  split; [exact L|]. split.
  - unfold added_lines. now rewrite split_lines_app, List.filter_app.
  - rewrite !check_pr_size_eq, L.
    destruct (threshold <? lines_changed d1)%nat eqn:T; [|congruence].
    intros _. apply Nat.ltb_lt in T.
    assert (T' : (threshold <? lines_changed d1 + lines_changed d2)%nat = true)
      by (apply Nat.ltb_lt; lia).
    rewrite T'. discriminate.
Qed.

(** X4.  The engine runs the four checks in the order of the registry and
    concatenates what they return: the size issue if any, then the
    security issues, then the import issue, then the complexity issue. *)
Theorem rules_run_in_registry_order (diff : string) :
  exists size security imports complexity,
    check_pr_size diff 500 = Ok size
    /\ check_security_patterns diff = Ok security
    /\ check_import_quality diff = Ok imports
    /\ check_code_complexity diff = Ok complexity
    /\ run_all_rules diff
       = Ok (option_list size ++ security ++ imports ++ complexity).
Proof.
  rewrite check_pr_size_eq, check_security_patterns_eq, check_import_quality_eq,
    check_code_complexity_eq, run_all_rules_eq.
  destruct (500 <? lines_changed diff)%nat; eexists _, _, _, _;
    repeat split; reflexivity.
Qed.

(** X5.  The engine never returns more than nine issues: at most one for the
    size, one per security pattern (six), one for the imports and one
    for the complexity. *)
Theorem rules_report_at_most_nine (diff : string) :
  exists found security,
    run_all_rules diff = Ok found
    /\ check_security_patterns diff = Ok security
    /\ (length security <= 6)%nat
    /\ (length found <= 9)%nat.
Proof.
  eexists _, _. split; [apply run_all_rules_eq|].
  split; [apply check_security_patterns_eq|].
  pose proof (filter_length_le (entry_found diff) dangerous_patterns) as B.
  change (length dangerous_patterns) with 6%nat in B.
  split; [now rewrite length_map|].
  rewrite !length_app, length_map.
  destruct (500 <? lines_changed diff)%nat, (search false star_import_pattern diff),
    ((100 <? length (added_lines diff))%nat
     && (function_count (added_lines diff) =? 1)%nat);
    cbn [length]; lia.
Qed.



(** A star import is reported wherever it stands in the diff: [from],
    a module name without whitespace, [import] and [*], separated by
    whitespace of any kind and length. *)
Lemma star_import_found (a w1 m w2 w3 b : string) :
  w1 <> "" -> all_chars isspace w1 = true ->
  m <> "" -> all_chars not_space m = true ->
  w2 <> "" -> all_chars isspace w2 = true ->
  w3 <> "" -> all_chars isspace w3 = true ->
  check_import_quality (a +:+ star_import w1 m w2 w3 +:+ b)
  = Ok [rule_issue "style" "low" star_import_message 0.9].
Proof.
  intros N1 H1 Nm Hm N2 H2 N3 H3. rewrite check_import_quality_eq.
  assert (S : search false star_import_pattern (a +:+ star_import w1 m w2 w3 +:+ b)
              = true); [|now rewrite S].
  apply search_from_reach. unfold star_import, star_import_pattern.
  rewrite !str_app_assoc. rewrite match_at_exact_word.
  apply match_at_run1; [exact N1 | now rewrite space_class|].
  apply match_at_run1; [exact Nm | now rewrite not_space_class|].
  apply match_at_run1; [exact N2 | now rewrite space_class|].
  rewrite match_at_exact_word.
  apply match_at_run1; [exact N3 | now rewrite space_class|].
  rewrite str_app_cons. now rewrite match_at_once.
Qed.




End RulesExtras.

(* ================================================================== *)
(** ** The gateway and the orchestrator: further properties *)
(* ================================================================== *)

Module ReviewerExtras.
Import PyStr Exc Models Rules Prompts Spec Reviewer Samples MoreSamples.
Import PyStrFacts RulesFacts FloatFacts ReviewerFacts.

#[local] Set Warnings "-inexact-float".

(** *** Helpers on strings *)

Lemma rstrip_nonspace_head (c : ascii) (r : string) :
  isspace c = false -> rstrip (String c r) = String c (rstrip r).
Proof. intros H. cbn [rstrip]. destruct (rstrip r); [now rewrite H | reflexivity]. Qed.

(** Stripping the right end stops at a character that is no whitespace. *)
Lemma rstrip_after (x : string) (c : ascii) (r : string) :
  isspace c = false ->
  rstrip (x +:+ String c r) = x +:+ String c (rstrip r).
Proof.
  intros H. induction x as [|a x IH].
  - rewrite !str_app_nil_l. now apply rstrip_nonspace_head.
  - rewrite !str_app_cons. cbn [rstrip]. rewrite IH.
    destruct x; reflexivity.
Qed.

(** Up to the first fence, a text without backticks is read whole. *)
Lemma before_fence (inner r : string) :
  has_char "`" inner = false ->
  before fence (inner +:+ fence +:+ r) = inner.
Proof.
  intros H. induction inner as [|c inner IH].
  - rewrite str_app_nil_l. unfold fence at 2. rewrite str_app_cons.
    cbn [before]. rewrite <- str_app_cons. fold fence. now rewrite prefix_app.
  - cbn [has_char] in H. destruct (Ascii.eqb "`" c) eqn:E; [discriminate|].
    rewrite str_app_cons. cbn [before].
    assert (P : String.prefix fence (String c (inner +:+ fence +:+ r)) = false).
    { unfold fence. cbn [String.prefix]. apply Ascii.eqb_neq in E.
      now destruct (ascii_dec "`" c). }
    rewrite P. now rewrite IH.
Qed.

(** Of a fenced block whose body has no backtick, the body is what
    remains. *)
Lemma remaining_text_fenced (ws inner rest : string) :
  all_space ws = true ->
  has_char "`" inner = false ->
  remaining_text (ws +:+ fence +:+ inner +:+ fence +:+ rest)
  = without_json_tag inner.
Proof.
  intros Hws Hin. unfold remaining_text. cbv zeta.
  assert (S : strip (ws +:+ fence +:+ inner +:+ fence +:+ rest)
              = fence +:+ inner +:+ fence +:+ rstrip rest).
  { unfold strip. rewrite lstrip_spaces by exact Hws.
    assert (L : forall t, lstrip (fence +:+ t) = fence +:+ t) by reflexivity.
    rewrite L.
    replace (fence +:+ inner +:+ fence +:+ rest)
      with ((fence +:+ inner +:+ "``") +:+ String "`" rest)
      by (unfold fence; now rewrite !str_app_assoc).
    rewrite rstrip_after by reflexivity.
    unfold fence. now rewrite !str_app_assoc. }
  rewrite S, prefix_app.
  change (drop 3 (fence +:+ inner +:+ fence +:+ rstrip rest))
    with (inner +:+ fence +:+ rstrip rest).
  now rewrite before_fence.
Qed.

Section Surroundings.

Variable json_loads : string -> result pyval.
Variable lax_float : pyval -> option float.
Variable lax_int : pyval -> option Z.
Variable lax_str : pyval -> option string.
Variable getenv : string -> option string.
Variable import_openai import_langchain import_requests : result unit.
Variable openai_chat anthropic_invoke local_post : string -> string -> string -> Z -> reply.
Variable elapsed : float.

#[local] Abbreviation Issue_of := (Issue_of lax_float lax_int lax_str).
#[local] Abbreviation kept := (kept lax_float lax_int lax_str).
#[local] Abbreviation survivors := (survivors lax_float lax_int lax_str).
#[local] Abbreviation _parse_llm_output :=
  (_parse_llm_output json_loads lax_float lax_int lax_str).
#[local] Abbreviation reply_issues := (reply_issues json_loads lax_float lax_int lax_str).
#[local] Abbreviation _call_openai :=
  (_call_openai json_loads lax_float lax_int lax_str getenv import_openai openai_chat).
#[local] Abbreviation _call_anthropic :=
  (_call_anthropic json_loads lax_float lax_int lax_str getenv import_langchain
     anthropic_invoke).
#[local] Abbreviation _call_local :=
  (_call_local json_loads lax_float lax_int lax_str getenv import_requests local_post).
#[local] Abbreviation call_llm :=
  (call_llm json_loads lax_float lax_int lax_str getenv import_openai
     import_langchain import_requests openai_chat anthropic_invoke local_post).
#[local] Abbreviation llm_outcome :=
  (llm_outcome json_loads lax_float lax_int lax_str getenv import_openai
     import_langchain import_requests openai_chat anthropic_invoke local_post).
#[local] Abbreviation review_pr :=
  (review_pr json_loads lax_float lax_int lax_str getenv import_openai
     import_langchain import_requests openai_chat anthropic_invoke local_post elapsed).
#[local] Abbreviation review_pr_eq :=
  (review_pr_eq json_loads lax_float lax_int lax_str getenv import_openai
     import_langchain import_requests openai_chat anthropic_invoke local_post elapsed).

(** *** Helpers on the gateway *)

(** What [call_llm] makes of the outcome of a provider function. *)
Lemma call_llm_dispatch (pr_diff : PRDiff) (provider model : string) (timeout : Z) :
  let prompt := build_task_prompt (diff pr_diff) (title pr_diff) (description pr_diff) in
  let rewrap (r : result (list Issue)) :=
    match r with
    | Ok issues => Ok issues
    | Raise e =>
        if isinstance e LLMTimeoutError || isinstance e LLMInvalidOutputError
           || isinstance e ReviewerError
        then Raise e
        else Raise (Exn ReviewerError ("LLM call failed: " +:+ exn_msg e))
    end in
  call_llm pr_diff provider model timeout
  = rewrap (if String.eqb provider "openai" then _call_openai prompt model timeout
            else if String.eqb provider "anthropic"
                 then _call_anthropic prompt model timeout
            else if String.eqb provider "local" then _call_local prompt model timeout
            else Raise (Exn ReviewerError ("Unsupported LLM provider: " +:+ provider))).
Proof. reflexivity. Qed.

(** A list [call_llm] returns is the parse of some reply. *)
Lemma call_llm_Ok_parsed (pr_diff : PRDiff) (provider model : string) (timeout : Z)
    (l : list Issue) :
  call_llm pr_diff provider model timeout = Ok l ->
  exists content, _parse_llm_output content = Ok l.
Proof.
  assert (R : forall r, reply_issues r = Ok l ->
                exists content, _parse_llm_output content = Ok l).
  { intros [content|e]; [eauto | discriminate]. }
  rewrite call_llm_dispatch. cbv zeta.
  destruct (String.eqb provider "openai").
  { unfold Reviewer._call_openai.
    destruct import_openai; cbn [mbind result_bind].
    - destruct (key_of _ _).
      + destruct (reply_issues _) eqn:E; [intros [= <-]; now apply R in E|].
        destruct (contains _ _); cbn; discriminate.
      + destruct (contains _ _); cbn; discriminate.
    - destruct (contains _ _); cbn; discriminate. }
  destruct (String.eqb provider "anthropic").
  { unfold Reviewer._call_anthropic.
    destruct import_langchain; cbn [mbind result_bind]; [|cbn; discriminate].
    destruct (key_of _ _); [|cbn; discriminate].
    destruct (reply_issues _) eqn:E; [intros [= <-]; now apply R in E|].
    cbn; discriminate. }
  destruct (String.eqb provider "local").
  { unfold Reviewer._call_local.
    destruct import_requests as [[]|e]; cbn [mbind result_bind].
    - destruct (reply_issues _) eqn:E; [intros [= <-]; now apply R in E|].
      destruct (isinstance _ RequestsTimeout); cbn; discriminate.
    - destruct (_ || _ || _); discriminate. }
  cbn. discriminate.
Qed.

Lemma parse_llm_output_survivors (content : string) (l : list Issue) :
  _parse_llm_output content = Ok l -> exists items, l = survivors items.
Proof.
  pose proof (parse_llm_output_cases json_loads lax_float lax_int lax_str content) as H.
  destruct (json_loads _) as [v|e].
  - destruct v;
      try match type of H with ex _ => destruct H as [msg ->]; discriminate end.
    rewrite H. intros [= <-]. eauto.
  - destruct H as [msg ->]; discriminate.
Qed.

Lemma survivors_reach_threshold (items : list pyval) :
  Forall (fun i => (CONFIDENCE_THRESHOLD <=? confidence i)%float = true)
         (survivors items).
Proof.
  unfold Reviewer.survivors. induction items as [|item items IH]; [constructor|].
  cbn [omap list_omap]. destruct (kept item) as [i|] eqn:K; [|exact IH].
  constructor; [|exact IH].
  now apply (kept_Some lax_float lax_int lax_str) in K as [_ K].
Qed.

(** *** The properties *)


(** X11.  A provider name other than [openai], [anthropic] and [local] (the
    names are case-sensitive) raises a [ReviewerError] that names it. *)
Theorem unsupported_provider_is_a_provider_error (pr_diff : PRDiff)
    (provider model : string) (timeout : Z) :
  provider <> "openai" -> provider <> "anthropic" -> provider <> "local" ->
  call_llm pr_diff provider model timeout
  = Raise (Exn ReviewerError ("Unsupported LLM provider: " +:+ provider)).
Proof.
  intros H1 H2 H3. rewrite call_llm_dispatch. cbv zeta.
  apply String.eqb_neq in H1, H2, H3. now rewrite H1, H2, H3.
Qed.

(** X12.  [call_llm] never raises an [LLMInvalidOutputError]: a reply that
    does not parse comes out of every provider function wrapped in a
    [ReviewerError] (or, on the OpenAI path, in an [LLMTimeoutError]). *)
Theorem invalid_output_never_leaves_call_llm (pr_diff : PRDiff)
    (provider model : string) (timeout : Z) (e : exn) :
  (forall e', import_requests = Raise e' -> exn_cls e' <> LLMInvalidOutputError) ->
  call_llm pr_diff provider model timeout = Raise e ->
  exn_cls e = ReviewerError \/ exn_cls e = LLMTimeoutError.
Proof.
  intros Hi. rewrite call_llm_dispatch. cbv zeta.
  destruct (String.eqb provider "openai").
  { unfold Reviewer._call_openai.
    destruct (_ ← import_openai; _) as [l|e0]; [discriminate|].
    destruct (contains _ _); cbn; intros [= <-]; auto. }
  destruct (String.eqb provider "anthropic").
  { unfold Reviewer._call_anthropic.
    destruct (_ ← import_langchain; _) as [l|e0]; [discriminate|].
    cbn. intros [= <-]. auto. }
  destruct (String.eqb provider "local").
  { unfold Reviewer._call_local.
    destruct import_requests as [[]|e0] eqn:I; cbn [mbind result_bind].
    - destruct (reply_issues _) as [l|e0]; [discriminate|].
      destruct (isinstance e0 RequestsTimeout); cbn; intros [= <-]; auto.
    - specialize (Hi e0 eq_refl).
      destruct e0 as [[] m]; cbn in *; intros [= <-]; cbn; auto; congruence. }
  cbn. intros [= <-]. auto.
Qed.

(** X13.  On the OpenAI path a failed call is told apart by its message alone:
    it is raised as [LLMTimeoutError] when the message contains
    [timeout] in any letter case, and as [ReviewerError] carrying the
    message otherwise. *)
Theorem openai_failures_go_by_message (pr_diff : PRDiff) (model : string)
    (timeout : Z) (api_key : string) (e : exn) :
  import_openai = Ok tt ->
  getenv "OPENAI_API_KEY" = Some api_key -> api_key <> "" ->
  openai_chat api_key model
    (build_task_prompt (diff pr_diff) (title pr_diff) (description pr_diff))
    timeout = Failed e ->
  call_llm pr_diff "openai" model timeout
  = Raise (if contains "timeout" (lower (exn_msg e))
           then Exn LLMTimeoutError "OpenAI API timeout"
           else Exn ReviewerError ("OpenAI API error: " +:+ exn_msg e)).
Proof.
  intros Io Hk Hne Hf. rewrite call_llm_dispatch. cbv zeta.
  cbn [String.eqb Ascii.eqb Bool.eqb].
  unfold Reviewer._call_openai, key_of. rewrite Io, Hk. cbn [mbind result_bind].
  destruct api_key as [|c k]; [congruence|].
  rewrite Hf. cbn [Reviewer.reply_issues].
  now destruct (contains "timeout" (lower (exn_msg e))).
Qed.

(** X14.  On the Anthropic path every failure, a timeout included, is raised
    as a plain [ReviewerError]. *)
Theorem anthropic_failures_are_provider_errors (pr_diff : PRDiff)
    (model : string) (timeout : Z) (e : exn) :
  call_llm pr_diff "anthropic" model timeout = Raise e ->
  exn_cls e = ReviewerError
  /\ String.prefix "Anthropic (LangChain) error: " (exn_msg e) = true.
Proof.
  rewrite call_llm_dispatch. cbv zeta. cbn [String.eqb Ascii.eqb Bool.eqb].
  unfold Reviewer._call_anthropic.
  destruct (_ ← import_langchain; _) as [l|e0]; [discriminate|].
  cbn. intros [= <-]. split; [reflexivity|]. apply prefix_app.
Qed.

(** X15.  On the local path a failed request is told apart by its class: a
    [requests.Timeout] is raised as [LLMTimeoutError], anything else as
    [ReviewerError] carrying the message; the request goes to
    [LOCAL_LLM_ENDPOINT], or to the local default when that is unset. *)
Theorem local_failures_go_by_class (pr_diff : PRDiff) (model : string)
    (timeout : Z) (e : exn) :
  import_requests = Ok tt ->
  local_post
    (default "http://localhost:8000/v1/chat/completions"
             (getenv "LOCAL_LLM_ENDPOINT"))
    model
    (build_task_prompt (diff pr_diff) (title pr_diff) (description pr_diff))
    timeout = Failed e ->
  call_llm pr_diff "local" model timeout
  = Raise (if isinstance e RequestsTimeout
           then Exn LLMTimeoutError "Local LLM timeout"
           else Exn ReviewerError ("Local LLM error: " +:+ exn_msg e)).
Proof.
  intros Ir Hf. rewrite call_llm_dispatch. cbv zeta.
  cbn [String.eqb Ascii.eqb Bool.eqb].
  unfold Reviewer._call_local. rewrite Ir. cbn [mbind result_bind].
  rewrite Hf. cbn [Reviewer.reply_issues].
  now destruct (isinstance e RequestsTimeout).
Qed.

(** X16.  [llm_used] is true exactly when the LLM was asked for and the call
    returned; [model_name] is then the model, and [None] otherwise. *)
Theorem llm_used_means_the_call_returned (pr_diff : PRDiff) (use_llm : bool)
    (llm_provider llm_model : string) :
  exists out,
    review_pr pr_diff use_llm llm_provider llm_model = Ok out
    /\ (llm_used (summary out) = true <->
        use_llm = true
        /\ exists l, call_llm pr_diff llm_provider llm_model 30 = Ok l)
    /\ model_name (summary out)
       = if llm_used (summary out) then Some llm_model else None.
Proof.
  destruct (review_pr_eq pr_diff use_llm llm_provider llm_model)
    as (rule_issues & R & E).
  unfold Reviewer.llm_outcome in E.
  destruct use_llm.
  - destruct (call_llm pr_diff llm_provider llm_model 30) as [l|e] eqn:C;
      eexists; (split; [exact E|]); cbn [summary llm_used model_name].
    + split; [|reflexivity]. split; [eauto | reflexivity].
    + split; [|reflexivity]. split; [discriminate|].
      intros [_ [l Hl]]. discriminate.
  - eexists. split; [exact E|]. cbn [summary llm_used model_name].
    split; [|reflexivity]. split; [discriminate | intros [? _]; discriminate].
Qed.

Lemma with_severity_sum (l : list Issue) :
  Forall (fun i => issue_ok i = true) l ->
  (with_severity "high" l + with_severity "medium" l + with_severity "low" l
   = length l)%nat.
Proof.
  induction 1 as [|i l Hi _ IH]; [reflexivity|].
  rewrite !with_severity_cons. cbn [length].
  apply issue_ok_severity in Hi as [-> | [-> | ->]];
    cbn [String.eqb Ascii.eqb Bool.eqb]; lia.
Qed.

(** X17.  In every report the three severity counts add up to [total_issues]. *)
Theorem severity_counts_add_up (pr_diff : PRDiff) (use_llm : bool)
    (llm_provider llm_model : string) :
  exists out,
    review_pr pr_diff use_llm llm_provider llm_model = Ok out
    /\ (high_severity (summary out) + medium_severity (summary out)
        + low_severity (summary out) = total_issues (summary out))%nat.
Proof.
  destruct (review_pr_eq pr_diff use_llm llm_provider llm_model)
    as (rule_issues & R & E).
  pose proof (llm_outcome_ok json_loads lax_float lax_int lax_str getenv
                import_openai import_langchain import_requests openai_chat
                anthropic_invoke local_post pr_diff use_llm llm_provider
                llm_model) as L.
  destruct (llm_outcome _ _ _ _) as [[llm_issues used] name]. cbn [fst] in L.
  eexists. split; [exact E|].
  cbn [summary high_severity medium_severity low_severity total_issues].
  apply with_severity_sum, Forall_app_2; [exact (rule_issues_ok _ _ R) | exact L].
Qed.

(** X18.  No issue of a report has a confidence below the threshold of 0.7:
    the rules report with 0.8, 0.9 or 1.0, and the gateway keeps no
    element below the threshold. *)
Theorem report_confidence_floor (pr_diff : PRDiff) (use_llm : bool)
    (llm_provider llm_model : string) :
  exists out,
    review_pr pr_diff use_llm llm_provider llm_model = Ok out
    /\ Forall (fun i => (CONFIDENCE_THRESHOLD <=? confidence i)%float = true)
              (issues out).
Proof.
  destruct (review_pr_eq pr_diff use_llm llm_provider llm_model)
    as (rule_issues & R & E).
  assert (L : Forall (fun i => (CONFIDENCE_THRESHOLD <=? confidence i)%float = true)
                (fst (fst (llm_outcome pr_diff use_llm llm_provider llm_model)))).
  { unfold Reviewer.llm_outcome. destruct use_llm; [|constructor].
    destruct (call_llm pr_diff llm_provider llm_model 30) as [l|e] eqn:C;
      [|constructor].
    apply call_llm_Ok_parsed in C as [content C].
    apply parse_llm_output_survivors in C as [items ->].
    apply survivors_reach_threshold. }
  destruct (llm_outcome _ _ _ _) as [[llm_issues used] name]. cbn [fst] in L.
  eexists. split; [exact E|]. cbn [issues].
  apply Forall_app_2; [|exact L].
  rewrite run_all_rules_eq in R. apply Ok_inj in R. subst rule_issues.
  repeat apply Forall_app_2.
  - destruct (_ <? _)%nat; repeat constructor.
  - clear E.
    induction (List.filter (entry_found (diff pr_diff)) dangerous_patterns)
      as [|x l IH]; cbn [map]; [constructor|].
    constructor; [reflexivity | exact IH].
  - destruct (Re.search _ _ _); repeat constructor.
  - destruct (_ && _); repeat constructor.
Qed.

(** X20.  When a reply is a fenced block whose body has no backtick, what is
    decoded is the body without a leading [json]: the whitespace before
    the block and everything after the closing fence have no influence
    on the result. *)
Theorem text_around_the_fence_is_ignored (ws inner rest : string) :
  all_space ws = true ->
  has_char "`" inner = false ->
  strip_fence (strip (ws +:+ fence +:+ inner +:+ fence +:+ rest))
  = Ok (if startswith inner "json" then drop 4 inner else inner)
  /\ _parse_llm_output (ws +:+ fence +:+ inner +:+ fence +:+ rest)
     = _parse_llm_output (fence +:+ inner +:+ fence).
Proof.
  intros Hws Hin.
  pose proof (remaining_text_fenced ws inner rest Hws Hin) as R.
  pose proof (remaining_text_fenced "" inner "" eq_refl Hin) as R0.
  rewrite str_app_nil_l, str_app_nil_r in R0.
  split.
  - rewrite strip_fence_eq, R. reflexivity.
  - unfold Reviewer._parse_llm_output, Reviewer.parse_body. cbv zeta.
    now rewrite !strip_fence_eq, R, R0.
Qed.

(** X21.  An element of the decoded array that is no object, or an object
    without one of the required fields [type], [severity], [message],
    [confidence] and [action], is skipped: the elements around it are
    collected as if it were not there. *)
Theorem malformed_elements_are_skipped (items rest : list pyval) (item : pyval) :
  (forall kw, item = PDict kw ->
     exists field, In field ["type"; "severity"; "message"; "confidence"; "action"]
                   /\ kw !! field = None) ->
  collect_issues lax_float lax_int lax_str (items ++ item :: rest) []
  = collect_issues lax_float lax_int lax_str (items ++ rest) [].
Proof.
  intros H.
  assert (K : kept item = None).
  { unfold Reviewer.kept.
    assert (I : exists e, Issue_of item = Raise e).
    { destruct item; try (eexists; reflexivity).
      destruct (H d eq_refl) as (field & Hf & Hd).
      unfold Reviewer.Issue_of.
      assert (F : Reviewer.read_fields lax_float lax_int lax_str d = None).
      { unfold Reviewer.read_fields.
        destruct (d !! "type") as [v1|] eqn:E1; cbn [mbind option_bind];
          [destruct (as_str lax_str v1); cbn [mbind option_bind]|];
          try reflexivity.
        destruct (d !! "severity") as [v2|] eqn:E2; cbn [mbind option_bind];
          [destruct (as_literal v2); cbn [mbind option_bind]|];
          try reflexivity.
        destruct (d !! "message") as [v3|] eqn:E3; cbn [mbind option_bind];
          [destruct (as_str lax_str v3); cbn [mbind option_bind]|];
          try reflexivity.
        destruct (d !! "confidence") as [v4|] eqn:E4; cbn [mbind option_bind];
          [destruct (as_float lax_float v4); cbn [mbind option_bind]|];
          try reflexivity.
        destruct (d !! "action") as [v5|] eqn:E5; cbn [mbind option_bind];
          [destruct (as_literal v5); cbn [mbind option_bind]|];
          try reflexivity.
        exfalso. cbn [In] in Hf.
        destruct Hf as [<- | [<- | [<- | [<- | [<- | []]]]]]; congruence. }
      rewrite F. eexists; reflexivity. }
    destruct I as [e ->]. reflexivity. }
  rewrite !(collect_issues_eq lax_float lax_int lax_str).
  unfold Reviewer.survivors. rewrite !omap_app. cbn [omap list_omap].
  now rewrite K.
Qed.

End Surroundings.

(** *** Without the LLM *)

(** X19.  With [use_llm] false the review is made offline: the report does not
    depend on the decoder, the environment, the libraries or the
    providers, nor on the provider and model names passed. *)
Theorem rules_only_review_is_offline
    (json_loads json_loads' : string -> result pyval)
    (lax_float lax_float' : pyval -> option float)
    (lax_int lax_int' : pyval -> option Z)
    (lax_str lax_str' : pyval -> option string)
    (getenv getenv' : string -> option string)
    (import_openai import_openai' import_langchain import_langchain'
       import_requests import_requests' : result unit)
    (openai_chat openai_chat' anthropic_invoke anthropic_invoke'
       local_post local_post' : string -> string -> string -> Z -> reply)
    (elapsed : float) (pr_diff : PRDiff)
    (llm_provider llm_provider' llm_model llm_model' : string) :
  review_pr json_loads lax_float lax_int lax_str getenv import_openai
    import_langchain import_requests openai_chat anthropic_invoke local_post
    elapsed pr_diff false llm_provider llm_model
  = review_pr json_loads' lax_float' lax_int' lax_str' getenv' import_openai'
      import_langchain' import_requests' openai_chat' anthropic_invoke'
      local_post' elapsed pr_diff false llm_provider' llm_model'.
Proof.
  destruct (review_pr_eq json_loads lax_float lax_int lax_str getenv
              import_openai import_langchain import_requests openai_chat
              anthropic_invoke local_post elapsed pr_diff false llm_provider
              llm_model) as (rule_issues & R & E).
  destruct (review_pr_eq json_loads' lax_float' lax_int' lax_str' getenv'
              import_openai' import_langchain' import_requests' openai_chat'
              anthropic_invoke' local_post' elapsed pr_diff false llm_provider'
              llm_model') as (rule_issues' & R' & E').
  unfold Reviewer.llm_outcome in E, E'. cbv beta iota zeta in E, E'.
  rewrite E, E'. rewrite R in R'. apply Ok_inj in R'. now subst rule_issues'.
Qed.

(** *** The properties at sample surroundings *)


Lemma unsupported_provider_is_a_provider_error_witness :
  call_llm decode_empty_array refuse refuse refuse all_set imported imported
    imported unreachable unreachable unreachable demo_request "OpenAI" "gpt-4" 30
  = Raise (Exn ReviewerError "Unsupported LLM provider: OpenAI").
Proof.
  refine (unsupported_provider_is_a_provider_error decode_empty_array refuse
            refuse refuse all_set imported imported imported unreachable
            unreachable unreachable demo_request "OpenAI" "gpt-4" 30 _ _ _);
    discriminate.
Defined.

Lemma invalid_output_never_leaves_call_llm_witness :
  call_llm decode_empty_array refuse refuse refuse all_set imported imported
    imported unreachable unreachable (replying "No issues found.")
    demo_request "local" "llama3" 30
  = Raise (Exn ReviewerError "Local LLM error: LLM output is not valid JSON")
  /\ (exn_cls (Exn ReviewerError "Local LLM error: LLM output is not valid JSON")
      = ReviewerError
      \/ exn_cls (Exn ReviewerError "Local LLM error: LLM output is not valid JSON")
         = LLMTimeoutError).
Proof.
  split; [vm_compute; reflexivity|].
  refine (invalid_output_never_leaves_call_llm decode_empty_array refuse refuse
            refuse all_set imported imported imported unreachable unreachable
            (replying "No issues found.") demo_request "local" "llama3" 30
            _ _ _).
  - intros e' H. discriminate H.
  - vm_compute. reflexivity.
Defined.

Lemma openai_failures_go_by_message_witness :
  call_llm decode_empty_array refuse refuse refuse all_set imported imported
    imported (failing (Exn OtherException "Request timed out.")) unreachable
    unreachable demo_request "openai" "gpt-4" 30
  = Raise (Exn ReviewerError "OpenAI API error: Request timed out.")
  /\ call_llm decode_empty_array refuse refuse refuse all_set imported imported
       imported (failing (Exn OtherException "Read Timeout")) unreachable
       unreachable demo_request "openai" "gpt-4" 30
     = Raise (Exn LLMTimeoutError "OpenAI API timeout").
Proof.
  split.
  - refine (openai_failures_go_by_message decode_empty_array refuse refuse refuse
              all_set imported imported imported
              (failing (Exn OtherException "Request timed out.")) unreachable
              unreachable demo_request "gpt-4" 30 "configured"
              (Exn OtherException "Request timed out.") eq_refl eq_refl _ eq_refl).
    discriminate.
  - refine (openai_failures_go_by_message decode_empty_array refuse refuse refuse
              all_set imported imported imported
              (failing (Exn OtherException "Read Timeout")) unreachable
              unreachable demo_request "gpt-4" 30 "configured"
              (Exn OtherException "Read Timeout") eq_refl eq_refl _ eq_refl).
    discriminate.
Defined.

Lemma anthropic_failures_are_provider_errors_witness :
  exn_cls (Exn ReviewerError "Anthropic (LangChain) error: Request timed out.")
  = ReviewerError
  /\ String.prefix "Anthropic (LangChain) error: "
       (exn_msg (Exn ReviewerError
                   "Anthropic (LangChain) error: Request timed out.")) = true.
Proof.
  refine (anthropic_failures_are_provider_errors decode_empty_array refuse refuse
            refuse all_set imported imported imported unreachable
            (failing (Exn RequestsTimeout "Request timed out.")) unreachable
            demo_request "claude-3-sonnet-20240229" 30 _ _).
  vm_compute. reflexivity.
Defined.

Lemma local_failures_go_by_class_witness :
  call_llm decode_empty_array refuse refuse refuse no_env imported imported
    imported unreachable unreachable
    (failing (Exn RequestsTimeout "Read timed out.")) demo_request "local"
    "llama3" 30
  = Raise (Exn LLMTimeoutError "Local LLM timeout")
  /\ call_llm decode_empty_array refuse refuse refuse no_env imported imported
       imported unreachable unreachable unreachable demo_request "local"
       "llama3" 30
     = Raise (Exn ReviewerError "Local LLM error: Connection error.").
Proof.
  split.
  - exact (local_failures_go_by_class decode_empty_array refuse refuse refuse
             no_env imported imported imported unreachable unreachable
             (failing (Exn RequestsTimeout "Read timed out.")) demo_request
             "llama3" 30 (Exn RequestsTimeout "Read timed out.") eq_refl eq_refl).
  - exact (local_failures_go_by_class decode_empty_array refuse refuse refuse
             no_env imported imported imported unreachable unreachable
             unreachable demo_request "llama3" 30
             (Exn OtherException "Connection error.") eq_refl eq_refl).
Defined.

Lemma text_around_the_fence_is_ignored_witness :
  strip_fence
    (strip ("  " +:+ fence +:+ ("json" +:+ newline +:+ "[]" +:+ newline)
            +:+ fence +:+ " Nothing else to report."))
  = Ok (newline +:+ "[]" +:+ newline)
  /\ _parse_llm_output decode_empty_array refuse refuse refuse
       ("  " +:+ fence +:+ ("json" +:+ newline +:+ "[]" +:+ newline)
        +:+ fence +:+ " Nothing else to report.")
     = _parse_llm_output decode_empty_array refuse refuse refuse
         (fence +:+ ("json" +:+ newline +:+ "[]" +:+ newline) +:+ fence).
Proof.
  exact (text_around_the_fence_is_ignored decode_empty_array refuse refuse refuse
           "  " ("json" +:+ newline +:+ "[]" +:+ newline)
           " Nothing else to report." eq_refl eq_refl).
Defined.

Lemma malformed_elements_are_skipped_witness :
  collect_issues refuse refuse refuse
    ([issue_object "security" "high" "Use of eval()" 0.9]
     ++ incomplete_object :: [issue_object "style" "low" "Star import" 0.8]) []
  = collect_issues refuse refuse refuse
      ([issue_object "security" "high" "Use of eval()" 0.9]
       ++ [issue_object "style" "low" "Star import" 0.8]) [].
Proof.
  refine (malformed_elements_are_skipped refuse refuse refuse
            [issue_object "security" "high" "Use of eval()" 0.9]
            [issue_object "style" "low" "Star import" 0.8] incomplete_object _).
  intros kw [= <-]. exists "severity". split; [cbn; tauto | reflexivity].
Defined.

End ReviewerExtras.

(* ================================================================== *)
(** ** What a match says about the text *)
(* ================================================================== *)

Module ReInversion.
Import PyStr Re ReSpec MatchSpec.
Import PyStrFacts ReFacts.

(** A successful run of a class read some characters of the class and
    went on with the continuation. *)
Lemma many_inv (f : ascii -> bool) (k : option ascii -> string -> bool)
    (prev : option ascii) (s : string) :
  many f k prev s = true ->
  exists run rest,
    s = run +:+ rest /\ all_chars f run = true
    /\ k (prev_after prev run) rest = true.
Proof.
  revert prev. induction s as [|c s IH]; intros prev H; cbn [many] in H.
  - exists "", "". auto.
  - destruct (f c) eqn:F; [|exists "", (String c s); auto].
    destruct (many f k (Some c) s) eqn:M; [|exists "", (String c s); auto].
    destruct (IH _ M) as (run & rest & -> & A & K).
    exists (String c run), rest. rewrite str_app_cons.
    cbn [all_chars prev_after]. rewrite F. auto.
Qed.

Lemma match_at_once_inv (ic : bool) (k : cclass) (p : pattern)
    (prev : option ascii) (s : string) :
  match_at ic (Chars Once k :: p) prev s = true ->
  exists c rest,
    s = String c rest /\ class_matches ic k c = true
    /\ match_at ic p (Some c) rest = true.
Proof.
  cbn [match_at]. destruct s as [|c rest]; [discriminate|].
  destruct (class_matches ic k c) eqn:C; [|discriminate]. eauto.
Qed.

Lemma match_at_many0_inv (ic : bool) (k : cclass) (p : pattern)
    (prev : option ascii) (s : string) :
  match_at ic (Chars Many0 k :: p) prev s = true ->
  exists run rest,
    s = run +:+ rest /\ all_chars (class_matches ic k) run = true
    /\ match_at ic p (prev_after prev run) rest = true.
Proof. cbn [match_at]. apply many_inv. Qed.

Lemma match_at_many1_inv (ic : bool) (k : cclass) (p : pattern)
    (prev : option ascii) (s : string) :
  match_at ic (Chars Many1 k :: p) prev s = true ->
  exists run rest,
    s = run +:+ rest /\ run <> "" /\ all_chars (class_matches ic k) run = true
    /\ match_at ic p (prev_after prev run) rest = true.
Proof.
  cbn [match_at]. destruct s as [|c s]; [discriminate|].
  destruct (class_matches ic k c) eqn:C; [|discriminate].
  intros H. apply many_inv in H as (run & rest & -> & A & K).
  exists (String c run), rest. rewrite str_app_cons.
  cbn [all_chars prev_after]. rewrite C. repeat split; auto; discriminate.
Qed.


(** A matched word stands in the text, letter for letter; with
    [re.IGNORECASE], up to the case of the letters. *)
Lemma match_at_word_inv (ic : bool) (w : string) (p : pattern)
    (prev : option ascii) (s : string) :
  match_at ic (lits w ++ p) prev s = true ->
  exists w' rest,
    s = w' +:+ rest
    /\ (if ic then lower w' = lower w else w' = w)
    /\ match_at ic p (prev_after prev w') rest = true.
Proof.
  revert prev s. induction w as [|c w IH]; intros prev s H.
  - exists "", s. destruct ic; auto.
  - cbn [lits app] in H.
    apply match_at_once_inv in H as (c' & rest & -> & C & H).
    apply IH in H as (w' & rest' & -> & E & H).
    exists (String c' w'), rest'. rewrite str_app_cons. split; [reflexivity|].
    split; [|exact H].
    cbn [class_matches] in C. unfold same_char in C.
    destruct ic; apply Ascii.eqb_eq in C.
    + cbn [lower]. now rewrite C, E.
    + now rewrite C, E.
Qed.


Lemma match_at_start_inv (ic : bool) (p : pattern) (prev : option ascii)
    (s : string) :
  match_at ic (Start :: p) prev s = true ->
  prev = None /\ match_at ic p prev s = true.
Proof. cbn [match_at]. destruct prev; [discriminate | auto]. Qed.


(** Lower-casing changes a character only into a lower-case letter. *)
Lemma lower_char_target (c : ascii) :
  lower_char c = c \/ is_lower_letter (lower_char c) = true.
Proof.
  destruct c as [[] [] [] [] [] [] [] []]; vm_compute; auto.
Qed.

(** A character that is no letter is matched by itself only, with and
    without [re.IGNORECASE]. *)
Lemma same_char_symbol (ic : bool) (l c : ascii) :
  lower_char l = l -> is_lower_letter l = false ->
  same_char ic l c = true -> c = l.
Proof.
  intros Hl Hn H. unfold same_char in H.
  destruct ic; apply Ascii.eqb_eq in H; [|congruence].
  rewrite Hl in H. destruct (lower_char_target c) as [E | E]; congruence.
Qed.

End ReInversion.

(* ================================================================== *)
(** ** The rules: what is reported, exactly *)
(* ================================================================== *)

Module RulesReports.
Import PyStr Re Exc Models Rules Spec ReSpec RulesSpec MatchSpec.
Import PyStrFacts RulesFacts ReFacts ReviewerFacts RulesExtras ReInversion.

#[local] Set Warnings "-inexact-float".

(** *** Helpers *)

Lemma plus_app (s : string) : "+" +:+ s = String "+" s.
Proof. now rewrite str_app_cons, str_app_nil_l. Qed.

Lemma paren_app (s : string) : "(" +:+ s = String "(" s.
Proof. now rewrite str_app_cons, str_app_nil_l. Qed.












(** *** The properties *)

(** X9.  An added line counts as a function header exactly when it is [+],
    optional whitespace, [def] in lower case, whitespace, a name of word
    characters, optional whitespace and an opening parenthesis, followed
    by anything. *)
Theorem function_headers_exactly (line : string) :
  match_ function_pattern line = true <->
  exists indent w1 name w2 rest,
    line = function_header indent w1 name w2 rest
    /\ all_chars isspace indent = true
    /\ w1 <> "" /\ all_chars isspace w1 = true
    /\ name <> "" /\ all_chars isword name = true
    /\ all_chars isspace w2 = true.
Proof.
  unfold match_, function_pattern, function_header. cbn [app]. split.
  - intros H.
    apply match_at_start_inv in H as [_ H].
    apply match_at_once_inv in H as (c & r & -> & C & H).
    apply match_at_many0_inv in H as (indent & r1 & -> & Hi & H).
    apply (match_at_word_inv false "def") in H as (w & r2 & -> & -> & H).
    apply match_at_many1_inv in H as (w1 & r3 & -> & N1 & H1 & H).
    apply match_at_many1_inv in H as (name & r4 & -> & N2 & H2 & H).
    apply match_at_many0_inv in H as (w2 & r5 & -> & H3 & H).
    apply match_at_once_inv in H as (c2 & rest & -> & C2 & _).
    apply (same_char_symbol false "+") in C; [subst c | reflexivity..].
    apply (same_char_symbol false "(") in C2; [subst c2 | reflexivity..].
    exists indent, w1, name, w2, rest.
    rewrite plus_app, paren_app. auto 10.
  - intros (indent & w1 & name & w2 & rest & -> & Hi & N1 & H1 & N2 & H2 & H3).
    rewrite plus_app, paren_app. cbn [match_at].
    apply match_at_run0; [exact Hi|].
    rewrite match_at_exact_word.
    apply match_at_run1; [exact N1 | exact H1 |].
    apply match_at_run1; [exact N2 | exact H2 |].
    apply match_at_run0; [exact H3|].
    reflexivity.
Qed.

(** A coroutine header and a name in upper case are no function
    headers; an indented method header is one. *)
Example async_def_is_no_header :
  match_ function_pattern "+async def handler(request):" = false
  /\ match_ function_pattern "+DEF handler(request):" = false
  /\ match_ function_pattern "+    def handler (self, request):" = true.
Proof. vm_compute. auto. Qed.

(** X8.  The import check reports exactly the diffs that contain [from],
    a module name free of whitespace, [import] and [*], separated by
    non-empty whitespace, all in lower case; it then reports once. *)
Theorem star_import_reports_exactly (diff : string) :
  (check_import_quality diff = Ok []
   \/ check_import_quality diff
      = Ok [rule_issue "style" "low" star_import_message 0.9])
  /\ (check_import_quality diff
      = Ok [rule_issue "style" "low" star_import_message 0.9]
      <-> exists a w1 m w2 w3 b,
            diff = a +:+ star_import w1 m w2 w3 +:+ b
            /\ w1 <> "" /\ all_chars isspace w1 = true
            /\ m <> "" /\ all_chars not_space m = true
            /\ w2 <> "" /\ all_chars isspace w2 = true
            /\ w3 <> "" /\ all_chars isspace w3 = true).
Proof.
  split.
  { rewrite check_import_quality_eq. destruct (search _ _ _); auto. }
  split.
  - rewrite check_import_quality_eq.
    destruct (search false star_import_pattern diff) eqn:S; [|discriminate].
    intros _. unfold search in S.
    apply search_from_found in S as (a & d & -> & H).
    unfold star_import_pattern in H.
    apply (match_at_word_inv false "from") in H as (w & r0 & -> & -> & H).
    cbn [app] in H.
    apply match_at_many1_inv in H as (w1 & r1 & -> & N1 & H1 & H).
    apply match_at_many1_inv in H as (m & r2 & -> & N2 & H2 & H).
    apply match_at_many1_inv in H as (w2 & r3 & -> & N3 & H3 & H).
    apply (match_at_word_inv false "import") in H as (w & r4 & -> & -> & H).
    apply match_at_many1_inv in H as (w3 & r5 & -> & N4 & H4 & H).
    apply match_at_once_inv in H as (c & b & -> & C & _).
    apply (same_char_symbol false "*") in C; [subst c | reflexivity..].
    exists a, w1, m, w2, w3, b. unfold star_import.
    rewrite !str_app_assoc, !str_app_cons, !str_app_nil_l.
    rewrite not_space_class in H2. auto 12.
  - intros (a & w1 & m & w2 & w3 & b & -> & N1 & H1 & N2 & H2 & N3 & H3 & N4 & H4).
    now apply star_import_found.
Qed.



End RulesReports.

(* ================================================================== *)
(** ** The REST wrapper: properties *)
(* ================================================================== *)

Module ApiExtras.
Import PyStr Re Exc Spec ReSpec RulesSpec Api ApiEndpoints ApiSpec.
Import PyStrFacts RulesFacts ReFacts RulesExtras.

#[local] Set Warnings "-inexact-float".

(** *** Helpers *)

Lemma api_scan_patterns_eq (table : list (pattern * (string * string)))
    (diff : string) (acc : list issue_dict) :
  Api.scan_patterns table diff acc
  = acc ++ map entry_dict (List.filter (entry_found diff) table).
Proof.
  revert acc. induction table as [|[pat [msg sev]] table IH]; intros acc.
  - cbn. now rewrite app_nil_r.
  - cbn [Api.scan_patterns List.filter].
    change (entry_found diff (pat, (msg, sev))) with (search true pat diff).
    destruct (search true pat diff).
    + rewrite IH, <- app_assoc. reflexivity.
    + apply IH.
Qed.

Lemma api_check_security_patterns_eq (diff : string) :
  Api.check_security_patterns diff
  = map entry_dict (List.filter (entry_found diff) Api.patterns).
Proof. unfold Api.check_security_patterns. now rewrite api_scan_patterns_eq. Qed.

Lemma api_messages_entries (diff msg : string)
    (table : list (pattern * (string * string))) :
  In msg (ApiSpec.messages (map entry_dict (List.filter (entry_found diff) table)))
  <-> exists e, In e table /\ fst (snd e) = msg /\ entry_found diff e = true.
Proof.
  unfold ApiSpec.messages. rewrite map_map. cbn [entry_dict d_message].
  rewrite in_map_iff. split.
  - intros (e & <- & He). apply filter_In in He as [He Hf]. eauto.
  - intros (e & He & <- & Hf). exists e. split; [reflexivity|].
    apply filter_In. auto.
Qed.

(** The severities of the table are keys of the counter. *)
Lemma api_patterns_severities (diff : string) :
  Forall (fun i => d_severity i = "high" \/ d_severity i = "medium"
                   \/ d_severity i = "low")
         (Api.check_security_patterns diff).
Proof.
  rewrite api_check_security_patterns_eq.
  apply List.Forall_forall. intros i Hi.
  apply in_map_iff in Hi as (e & <- & He).
  apply filter_In in He as [He _]. cbn [entry_dict d_severity].
  unfold Api.patterns in He. cbn [In] in He.
  repeat (destruct He as [<- | He]; [cbn; tauto|]). destruct He.
Qed.

Lemma api_with_severity_cons (sev : string) (i : issue_dict) (l : list issue_dict) :
  ApiSpec.with_severity sev (i :: l)
  = ((if String.eqb (d_severity i) sev then 1 else 0)
     + ApiSpec.with_severity sev l)%nat.
Proof.
  unfold ApiSpec.with_severity, count. cbn [List.filter].
  now destruct (String.eqb (d_severity i) sev).
Qed.

(** The counting loop on a counter with the three keys. *)
Lemma api_count_severities_eq (issues : list issue_dict) (low medium high : nat) :
  Forall (fun i => d_severity i = "high" \/ d_severity i = "medium"
                   \/ d_severity i = "low") issues ->
  Api.count_severities issues
    (<["low" := low]> (<["medium" := medium]> (<["high" := high]> ∅)))
  = Ok (<["low" := (low + ApiSpec.with_severity "low" issues)%nat]>
       (<["medium" := (medium + ApiSpec.with_severity "medium" issues)%nat]>
       (<["high" := (high + ApiSpec.with_severity "high" issues)%nat]> ∅))).
Proof.
  intros H. revert low medium high.
  assert (C : forall a b c a' b' c' : nat,
            a = a' -> b = b' -> c = c' ->
            Ok (<["low" := a]> (<["medium" := b]>
                 (<["high" := c]> (∅ : gmap string nat))))
            = Ok (<["low" := a']> (<["medium" := b']> (<["high" := c']> ∅))))
    by (intros; subst; reflexivity).
  induction H as [|i l Hi _ IH]; intros low medium high.
  - cbn [Api.count_severities]. unfold ApiSpec.with_severity, count.
    cbn [List.filter length]. now rewrite !Nat.add_0_r.
  - cbn [Api.count_severities]. rewrite !api_with_severity_cons.
    destruct Hi as [-> | [-> | ->]].
    + replace (_ !! "high") with (Some high) by reflexivity.
      replace (<["high" := (high + 1)%nat]> _)
        with (<["low" := low]> (<["medium" := medium]>
               (<["high" := (high + 1)%nat]> (∅ : gmap string nat)))).
      2:{ apply map_eq. intros k.
          destruct (decide (k = "high")) as [-> | N1]; [reflexivity|].
          rewrite (lookup_insert_ne _ "high" k) by congruence.
          destruct (decide (k = "low")) as [-> | N2]; [reflexivity|].
          rewrite !(lookup_insert_ne _ "low" k) by congruence.
          destruct (decide (k = "medium")) as [-> | N3]; [reflexivity|].
          rewrite !(lookup_insert_ne _ "medium" k) by congruence.
          now rewrite !(lookup_insert_ne _ "high" k) by congruence. }
      rewrite IH. cbn [String.eqb Ascii.eqb Bool.eqb]. apply C; lia.
    + replace (_ !! "medium") with (Some medium) by reflexivity.
      replace (<["medium" := (medium + 1)%nat]> _)
        with (<["low" := low]> (<["medium" := (medium + 1)%nat]>
               (<["high" := high]> (∅ : gmap string nat)))).
      2:{ apply map_eq. intros k.
          destruct (decide (k = "medium")) as [-> | N1]; [reflexivity|].
          rewrite (lookup_insert_ne _ "medium" k) by congruence.
          destruct (decide (k = "low")) as [-> | N2]; [reflexivity|].
          rewrite !(lookup_insert_ne _ "low" k) by congruence.
          now rewrite !(lookup_insert_ne _ "medium" k) by congruence. }
      rewrite IH. cbn [String.eqb Ascii.eqb Bool.eqb]. apply C; lia.
    + replace (_ !! "low") with (Some low) by reflexivity.
      replace (<["low" := (low + 1)%nat]> _)
        with (<["low" := (low + 1)%nat]> (<["medium" := medium]>
               (<["high" := high]> (∅ : gmap string nat)))).
      2:{ apply map_eq. intros k.
          destruct (decide (k = "low")) as [-> | N1]; [reflexivity|].
          now rewrite !(lookup_insert_ne _ "low" k) by congruence. }
      rewrite IH. cbn [String.eqb Ascii.eqb Bool.eqb]. apply C; lia.
Qed.

Lemma api_with_severity_sum (l : list issue_dict) :
  Forall (fun i => d_severity i = "high" \/ d_severity i = "medium"
                   \/ d_severity i = "low") l ->
  (ApiSpec.with_severity "high" l + ApiSpec.with_severity "medium" l
   + ApiSpec.with_severity "low" l = length l)%nat.
Proof.
  induction 1 as [|i l Hi _ IH]; [reflexivity|].
  rewrite !api_with_severity_cons. cbn [length].
  destruct Hi as [-> | [-> | ->]]; cbn [String.eqb Ascii.eqb Bool.eqb]; lia.
Qed.

(** The issues [run_review] collects. *)
Lemma api_issues_severities (diff : string) :
  Forall (fun i => d_severity i = "high" \/ d_severity i = "medium"
                   \/ d_severity i = "low")
         (option_list (Api.check_pr_size diff 500)
          ++ Api.check_security_patterns diff ++ Api.check_import_quality diff).
Proof.
  repeat apply Forall_app_2.
  - unfold Api.check_pr_size. cbv zeta.
    destruct (_ <? _)%nat; cbn [option_list]; [|constructor].
    constructor; [cbn; tauto | constructor].
  - apply api_patterns_severities.
  - unfold Api.check_import_quality.
    destruct (search _ _ _); [|constructor].
    constructor; [cbn; tauto | constructor].
Qed.

Lemma api_run_review_eq (diff : string) :
  let issues := option_list (Api.check_pr_size diff 500)
                ++ Api.check_security_patterns diff
                ++ Api.check_import_quality diff in
  Api.run_review diff
  = Ok (issues,
        <["low" := ApiSpec.with_severity "low" issues]>
        (<["medium" := ApiSpec.with_severity "medium" issues]>
        (<["high" := ApiSpec.with_severity "high" issues]> ∅))).
Proof.
  cbv zeta. unfold Api.run_review. cbv zeta.
  assert (E : (match Api.check_pr_size diff 500 with
               | Some size => [] ++ [size]
               | None => []
               end ++ Api.check_security_patterns diff)
              ++ Api.check_import_quality diff
              = option_list (Api.check_pr_size diff 500)
                ++ Api.check_security_patterns diff
                ++ Api.check_import_quality diff).
  { rewrite <- app_assoc. now destruct (Api.check_pr_size diff 500). }
  rewrite E.
  rewrite api_count_severities_eq by apply api_issues_severities.
  reflexivity.
Qed.

(** In a table that gives each message once, a message names its
    entry. *)
Lemma same_message_same_entry {A B : Type} (f : A -> B) (l : list A) (a b : A) :
  List.NoDup (map f l) -> In a l -> In b l -> f a = f b -> a = b.
Proof.
  induction l as [|x l IH]; intros N Ha Hb E; [destruct Ha|].
  cbn [map] in N. apply List.NoDup_cons_iff in N as [Nx N].
  destruct Ha as [-> | Ha], Hb as [-> | Hb].
  - reflexivity.
  - exfalso. apply Nx. rewrite E. now apply in_map.
  - exfalso. apply Nx. rewrite <- E. now apply in_map.
  - now apply IH.
Qed.

Lemma found_by_message (table : list (pattern * (string * string)))
    (pat : pattern) (msg sev diff : string) :
  List.NoDup (map (fun e => fst (snd e)) table) ->
  In (pat, (msg, sev)) table ->
  (exists e, In e table /\ fst (snd e) = msg /\ entry_found diff e = true)
  <-> search true pat diff = true.
Proof.
  intros N Hin. split.
  - intros (e & He & Hm & Hf).
    assert (e = (pat, (msg, sev)))
      by (apply (same_message_same_entry (fun e => fst (snd e)) table);
          assumption).
    subst e. exact Hf.
  - intros Hf. exists (pat, (msg, sev)). auto.
Qed.

Lemma api_patterns_messages :
  List.NoDup (map (fun e => fst (snd e)) Api.patterns).
Proof.
  cbn [map Api.patterns fst snd].
  repeat (constructor; [cbn [In]; intuition discriminate|]). constructor.
Qed.

Lemma api_found_entry_message (diff : string) (e : pattern * (string * string)) :
  In e Api.patterns -> entry_found diff e = true ->
  In (fst (snd e)) (ApiSpec.messages (Api.check_security_patterns diff)).
Proof.
  intros He Hf. rewrite api_check_security_patterns_eq.
  apply api_messages_entries. now exists e.
Qed.


(** *** The properties *)

(** X22.  [run_review] of [api.py] never fails: every severity it meets is a
    key of the counter.  It returns the size issue if any, then the
    security issues, then the import issue, at most nine in all, with
    a counter of exactly the three severities whose values add up to
    the number of issues. *)
Theorem api_run_review_counts (diff : string) :
  exists issues counts,
    Api.run_review diff = Ok (issues, counts)
    /\ issues = option_list (Api.check_pr_size diff 500)
                ++ Api.check_security_patterns diff
                ++ Api.check_import_quality diff
    /\ counts = <["low" := ApiSpec.with_severity "low" issues]>
                (<["medium" := ApiSpec.with_severity "medium" issues]>
                (<["high" := ApiSpec.with_severity "high" issues]> ∅))
    /\ (ApiSpec.with_severity "high" issues
        + ApiSpec.with_severity "medium" issues
        + ApiSpec.with_severity "low" issues = length issues)%nat
    /\ (length issues <= 9)%nat.
Proof.
  eexists _, _. split; [apply api_run_review_eq|].
  split; [reflexivity|]. split; [reflexivity|].
  split; [apply api_with_severity_sum, api_issues_severities|].
  rewrite !length_app, api_check_security_patterns_eq, length_map.
  pose proof (filter_length_le (entry_found diff) Api.patterns) as L.
  change (length Api.patterns) with 7%nat in L.
  assert (length (option_list (Api.check_pr_size diff 500)) <= 1)%nat
    by (destruct (Api.check_pr_size diff 500); cbn; lia).
  assert (length (Api.check_import_quality diff) <= 1)%nat
    by (unfold Api.check_import_quality; destruct (search _ _ _); cbn; lia).
  lia.
Qed.

(** X23.  The [/review] endpoint answers an empty diff with HTTP 400
    [diff is required] and every other request with a response, never
    with an uncaught exception; the response repeats the number and the
    title of the request, and its summary counts the issues returned,
    with [llm_used] false. *)
Theorem review_endpoint_outcomes (request : ReviewRequest) :
  match review request with
  | HTTPException status_code detail =>
      diff request = "" /\ status_code = 400%Z /\ detail = "diff is required"
  | JSONResponse content =>
      diff request <> ""
      /\ r_pr_number content = pr_number request
      /\ r_title content = title request
      /\ Api.run_review (diff request)
         = Ok (r_issues content,
               <["low" := low_severity (r_summary content)]>
               (<["medium" := medium_severity (r_summary content)]>
               (<["high" := high_severity (r_summary content)]> ∅)))
      /\ total_issues (r_summary content) = length (r_issues content)
      /\ (high_severity (r_summary content) + medium_severity (r_summary content)
          + low_severity (r_summary content)
          = total_issues (r_summary content))%nat
      /\ llm_used (r_summary content) = false
      /\ mode (r_summary content) = "rule-based"
  | Uncaught _ => False
  end.
Proof.
  unfold review. destruct (String.eqb_spec (diff request) "") as [E | N].
  - auto.
  - pose proof (api_run_review_eq (diff request)) as R. cbv zeta in R.
    rewrite R. cbn [mbind result_bind].
    repeat split; try assumption; try reflexivity.
    cbn [r_summary total_issues high_severity medium_severity low_severity
         r_issues].
    apply api_with_severity_sum, api_issues_severities.
Qed.

(** X24.  The wrapper and the rule engine agree on the checks they share,
    whatever the diff: each of the five common security patterns is
    reported by the one exactly when it is reported by the other, and
    so are the size of the change and a star import. *)
Theorem api_agrees_with_rules_on_shared_checks (diff : string) :
  exists found,
    Rules.check_security_patterns diff = Ok found
    /\ (forall api_message rules_message,
          In (api_message, rules_message) shared_checks ->
          In api_message (ApiSpec.messages (Api.check_security_patterns diff))
          <-> In rules_message (RulesSpec.messages found))
    /\ (forall threshold,
          Api.check_pr_size diff threshold = None
          <-> Rules.check_pr_size diff threshold = Ok None)
    /\ (Api.check_import_quality diff = []
        <-> Rules.check_import_quality diff = Ok []).
Proof.
  eexists. split; [apply check_security_patterns_eq|]. split; [|split].
  - intros am rm Hin. rewrite api_check_security_patterns_eq.
    rewrite api_messages_entries, messages_entry_issues.
    unfold shared_checks in Hin. cbn [In] in Hin.
    destruct Hin as [H | [H | [H | [H | [H | []]]]]];
      injection H as <- <-;
      (etransitivity;
       [ eapply (found_by_message Api.patterns);
         [ apply api_patterns_messages
         | unfold Api.patterns;
           repeat first [ left; reflexivity | right ] ]
       | symmetry; eapply (found_by_message Rules.dangerous_patterns);
         [ apply dangerous_patterns_messages
         | unfold Rules.dangerous_patterns;
           repeat first [ left; reflexivity | right ] ] ]).
  - intros threshold. rewrite check_pr_size_eq. unfold Api.check_pr_size.
    cbv zeta. fold (Rules.lines_changed diff).
    destruct (_ <? _)%nat; split; intros; (discriminate || reflexivity).
  - rewrite check_import_quality_eq. unfold Api.check_import_quality.
    destruct (search _ _ _); split; intros; (discriminate || reflexivity).
Qed.

(** X25.  The two patterns only the wrapper has: [hashlib.md5], and an
    assignment to [SECRET_KEY] that opens a quote, each in any letter
    case, are reported wherever they stand in the diff; for the secret
    key neither a value nor a closing quote is needed. *)
Theorem api_flags_md5_and_secret_key (a md5 key w1 w2 b : string) (q : ascii) :
  lower md5 = "hashlib.md5" ->
  lower key = "secret_key" ->
  all_chars isspace w1 = true -> all_chars isspace w2 = true ->
  is_quote q = true ->
  In "MD5 is broken - use SHA256 or bcrypt"
     (ApiSpec.messages (Api.check_security_patterns (a +:+ md5 +:+ b)))
  /\ In "Hardcoded secret key detected"
       (ApiSpec.messages
          (Api.check_security_patterns
             (a +:+ key +:+ w1 +:+ "=" +:+ w2 +:+ String q b))).
Proof.
  intros Hmd5 Hkey H1 H2 Hq. split.
  - apply (api_found_entry_message _
             (lits "hashlib.md5", ("MD5 is broken - use SHA256 or bcrypt", "high"))).
    + cbn [Api.patterns In]. auto 10.
    + unfold entry_found, search. cbn [fst]. apply search_from_reach.
      rewrite <- (app_nil_r (lits "hashlib.md5")).
      now rewrite (match_at_word [] "hashlib.md5") by exact Hmd5.
  - apply (api_found_entry_message _
             (lits "SECRET_KEY"
                ++ [Chars Many0 Space; Chars Once (Lit "="); Chars Many0 Space;
                    Chars Once (AnyOf [Rules.dquote; Rules.squote])],
              ("Hardcoded secret key detected", "high"))).
    + cbn [Api.patterns In]. auto 10.
    + unfold entry_found, search. cbn [fst]. apply search_from_reach.
      rewrite (match_at_word _ "SECRET_KEY") by exact Hkey.
      apply match_at_run0; [now rewrite space_class|].
      rewrite str_app_cons, str_app_nil_l, match_at_once by reflexivity.
      apply match_at_run0; [now rewrite space_class|].
      now rewrite match_at_once by (now rewrite quote_class).
Qed.

Lemma api_flags_md5_and_secret_key_witness :
  In "MD5 is broken - use SHA256 or bcrypt"
     (ApiSpec.messages
        (Api.check_security_patterns ("+h = " +:+ "HashLib.MD5" +:+ "(data)")))
  /\ In "Hardcoded secret key detected"
       (ApiSpec.messages
          (Api.check_security_patterns
             ("+h = " +:+ "Secret_Key" +:+ " " +:+ "=" +:+ ""
              +:+ String Rules.squote "(data)"))).
Proof.
  apply (api_flags_md5_and_secret_key "+h = " "HashLib.MD5" "Secret_Key" " " ""
           "(data)" Rules.squote); reflexivity.
Defined.

End ApiExtras.

(* ================================================================== *)
(** ** The standalone demo: properties *)
(* ================================================================== *)

Module DemoExtras.
Import PyStr Re Exc Spec Api ApiSpec Reviewer.
Import PyStrFacts RulesFacts ApiExtras.

#[local] Set Warnings "-inexact-float".



End DemoExtras.
